(** * superEEG: the [Brain] object and its volumetric reconstruction

    A shallow embedding of [superEEG/brain.py]: construction of a [Brain]
    object ([Brain.__init__]), the kurtosis exclusion mask of
    [Brain.plot_data], the reconstruction [Brain.to_nii], which maps
    electrode locations onto a voxel grid and averages colliding electrodes,
    and [Brain.save]; and of the loading by file extension of
    [supereeg/load.py] ([_load_from_path]).

    Numbers are IEEE binary64 values (numpy's float64), embedded as Rocq's
    primitive floats; voxel indices are int64 values, embedded as [Z]. *)

From Stdlib Require Import ZArith List Floats Lia Bool QArith Qround Uint63 Ascii.
From stdpp Require Import base list strings gmap.

Local Open Scope Z_scope.

(** ** Exceptions and results *)

Inductive exn : Set :=
| ValueError | IndexError | LinAlgError | FileNotFoundError
| AssertionError | TypeError.

Inductive result (A : Type) : Type :=
| Ok (a : A)
| Raise (e : exn).
Arguments Ok {A} a.
Arguments Raise {A} e.

Definition rbind {A B} (m : result A) (k : A -> result B) : result B :=
  match m with
  | Ok a => k a
  | Raise e => Raise e
  end.

Notation "'try' x <- m ; k" := (rbind m (fun x => k))
  (at level 10, x pattern, m at level 100, k at level 200).

(** Python's [for x in xs: body], with the loop state threaded through and an
    exception in the body leaving the loop. *)
Fixpoint for_each {A S} (xs : list A) (body : A -> S -> result S) (s : S)
  : result S :=
  match xs with
  | [] => Ok s
  | x :: xs' => try s' <- body x s; for_each xs' body s'
  end.

(** [range(n)] *)
Definition range (n : nat) : list nat := seq 0 n.

(** ** Scalars, vectors and matrices *)

Definition vec3 : Type := float * float * float.
Definition mat3 : Type := vec3 * vec3 * vec3.
Definition vec4 : Type := float * float * float * float.
(** nibabel's affine: a 4x4 float64 array, given by its four rows. *)
Definition affine : Type := vec4 * vec4 * vec4 * vec4.
Definition ivec3 : Type := Z * Z * Z.
(** A 2-D float64 array as the list of its rows. *)
Definition matrix : Type := list (list float).

(** [S[:3, 3]]: the translation column. *)
Definition affine_translation (S : affine) : vec3 :=
  let '(r0, r1, r2, _) := S in
  let '(_, _, _, t0) := r0 in
  let '(_, _, _, t1) := r1 in
  let '(_, _, _, t2) := r2 in
  (t0, t1, t2).

(** [S[0:3, 0:3]]: the rotation/scale block. *)
Definition affine_linear (S : affine) : mat3 :=
  let '(r0, r1, r2, _) := S in
  let '(a00, a01, a02, _) := r0 in
  let '(a10, a11, a12, _) := r1 in
  let '(a20, a21, a22, _) := r2 in
  ((a00, a01, a02), (a10, a11, a12), (a20, a21, a22)).

(** One row of [R - S[:3, 3]] (the vector is broadcast over the rows). *)
Definition vsub (r t : vec3) : vec3 :=
  let '(x, y, z) := r in
  let '(t0, t1, t2) := t in
  ((x - t0)%float, (y - t1)%float, (z - t2)%float).

(** One row of [np.dot(A, B)] for a 3-column [A] and a 3x3 [B]; the three
    products of a component are summed from left to right. *)
Definition vdot (r : vec3) (B : mat3) : vec3 :=
  let '(x, y, z) := r in
  let '((b00, b01, b02), (b10, b11, b12), (b20, b21, b22)) := B in
  ((x * b00 + y * b10 + z * b20)%float,
   (x * b01 + y * b11 + z * b21)%float,
   (x * b02 + y * b12 + z * b22)%float).

(** ** The integer cast [np.array(..., dtype='int')]

    numpy converts a float64 to int64 with C's cast, which drops the
    fractional part.  A value that has no int64 (NaN, an infinity, a
    magnitude of 2^63 or more) gives the smallest int64, as the x86-64
    conversion does. *)

Definition INT64_MIN : Z := - 2 ^ 63.
Definition INT64_MAX : Z := 2 ^ 63 - 1.

Definition wrap64 (z : Z) : Z := (z + 2 ^ 63) mod 2 ^ 64 - 2 ^ 63.

(** The integer nearest to the value [(-1)^s * m * 2^e] on the side of
    zero. *)
Definition SF_trunc (f : spec_float) : option Z :=
  match f with
  | S754_zero _ => Some 0
  | S754_finite s m e =>
      let num := if s then Z.neg m else Z.pos m in
      Some (if 0 <=? e then num * 2 ^ e else Z.quot num (2 ^ (- e)))
  | S754_infinity _ | S754_nan => None
  end.

Definition float_to_int64 (x : float) : Z :=
  match SF_trunc (Prim2SF x) with
  | Some z => if (INT64_MIN <=? z) && (z <=? INT64_MAX) then z else INT64_MIN
  | None => INT64_MIN
  end.

Definition vcast (v : vec3) : ivec3 :=
  let '(x, y, z) := v in
  (float_to_int64 x, float_to_int64 y, float_to_int64 z).

(** The exact rational value of a finite float. *)
Definition SF_value (f : spec_float) : option Q :=
  match f with
  | S754_zero _ => Some (0 # 1)%Q
  | S754_finite s m e =>
      let num := if s then Z.neg m else Z.pos m in
      Some (if 0 <=? e then inject_Z (num * 2 ^ e)
            else Qmake num (Z.to_pos (2 ^ (- e))))
  | S754_infinity _ | S754_nan => None
  end.

Definition float_value (x : float) : option Q := SF_value (Prim2SF x).

(** [int(n)] to float64, for the sample counts that enter a division. *)
Definition float_of_nat (n : nat) : float :=
  PrimFloat.of_uint63 (Uint63.of_Z (Z.of_nat n)).

(** ** Four-dimensional float64 arrays

    A C-contiguous array: its shape and its flat buffer, the cell
    [(a, b, c, d)] sitting at offset [((a * sy + b) * sz + c) * st + d]. *)

Definition shape4 : Type := Z * Z * Z * Z.
Definition index4 : Type := Z * Z * Z * Z.

Record ndarray : Type := { nd_shape : shape4; nd_buf : list float }.

Definition size4 (s : shape4) : Z :=
  let '(sx, sy, sz, st) := s in sx * sy * sz * st.

(** [np.zeros(shape)] *)
Definition np_zeros (s : shape4) : result ndarray :=
  let '(sx, sy, sz, st) := s in
  if (sx <? 0) || (sy <? 0) || (sz <? 0) || (st <? 0) then Raise ValueError
  else Ok {| nd_shape := s; nd_buf := replicate (Z.to_nat (size4 s)) 0%float |}.

(** One subscript on an axis of length [n]: a negative subscript counts from
    the end, anything outside [-n, n) is an [IndexError]. *)
Definition norm_index (n k : Z) : result Z :=
  if (0 <=? k) && (k <? n) then Ok k
  else if (- n <=? k) && (k <? 0) then Ok (k + n)
  else Raise IndexError.

Definition offset4 (s : shape4) (i : index4) : Z :=
  let '(_, sy, sz, st) := s in
  let '(a, b, c, d) := i in
  ((a * sy + b) * sz + c) * st + d.

Definition flat_index (s : shape4) (i : index4) : result nat :=
  let '(sx, sy, sz, st) := s in
  let '(a, b, c, d) := i in
  try a' <- norm_index sx a;
  try b' <- norm_index sy b;
  try c' <- norm_index sz c;
  try d' <- norm_index st d;
  Ok (Z.to_nat (offset4 s (a', b', c', d'))).

(** [g[a, b, c, d]] *)
Definition getitem (g : ndarray) (i : index4) : result float :=
  try o <- flat_index (nd_shape g) i;
  match nd_buf g !! o with
  | Some v => Ok v
  | None => Raise IndexError
  end.

(** [g[a, b, c, d] += y], in place. *)
Definition iadd (g : ndarray) (i : index4) (y : float) : result ndarray :=
  try o <- flat_index (nd_shape g) i;
  match nd_buf g !! o with
  | Some v =>
      Ok {| nd_shape := nd_shape g; nd_buf := <[o := (v + y)%float]> (nd_buf g) |}
  | None => Raise IndexError
  end.

(** [Y[i, j]] for non-negative [i], [j]. *)
Definition matrix_get (Y : matrix) (i j : nat) : result float :=
  match Y !! i with
  | Some row =>
      match row !! j with
      | Some v => Ok v
      | None => Raise IndexError
      end
  | None => Raise IndexError
  end.

(** [locs[j, 0], locs[j, 1], locs[j, 2]] *)
Definition locs_get (locs : list ivec3) (j : nat) : result ivec3 :=
  match locs !! j with
  | Some p => Ok p
  | None => Raise IndexError
  end.

(** [np.divide(data, counts)] on arrays of one shape.  The division is
    IEEE's: under numpy's default error state a zero divisor gives a
    warning and an infinity or a NaN, never an exception. *)
Definition np_divide (data counts : ndarray) : ndarray :=
  {| nd_shape := nd_shape data;
     nd_buf := zip_with PrimFloat.div (nd_buf data) (nd_buf counts) |}.

(** [data[np.isnan(data)] = 0] *)
Definition nan_to_zero (x : float) : float :=
  if PrimFloat.is_nan x then 0%float else x.

Definition mask_nan (data : ndarray) : ndarray :=
  {| nd_shape := nd_shape data; nd_buf := map nan_to_zero (nd_buf data) |}.

(** ** The [Brain] object *)

(** A float64 array of rank 0, 1 or 3: what [np.array(sample_rate)], and a
    number divided by it, can be. *)
Inductive farray : Type :=
| Rank0 (x : float)            (* a 0-d array: one number *)
| Rank1 (l : list float)       (* a 1-d array *)
| Rank3 (a : list matrix).     (* a 3-d array, as the list of its 2-d blocks *)

(** An operation applied to every entry; the rank is kept. *)
Definition farray_map (f : float -> float) (a : farray) : farray :=
  match a with
  | Rank0 x => Rank0 (f x)
  | Rank1 l => Rank1 (map f l)
  | Rank3 a => Rank3 (map (map (map f)) a)
  end.

(** A session label: [sessions] may hold integers or strings. *)
Inductive label : Set :=
| LInt (z : Z)
| LStr (s : string).

#[global] Instance label_eq_dec : EqDecision label.
Proof. solve_decision. Defined.

Record Brain : Type := {
  data : matrix;                      (* samples x electrodes *)
  locs : list vec3;                   (* electrodes x (x, y, z) *)
  sessions : list label;              (* one label per sample *)
  sample_rate : option (list float);  (* [None] or one rate per session *)
  n_secs : option farray;             (* [None] or samples / rates *)
  meta : option (gmap string string);
  date_created : string;
  n_elecs : nat;
  n_sessions : nat;
  kurtosis : list float               (* one value per electrode *)
}.

(** ** Images and the file system *)

(** What [to_nii] uses of a nibabel image: [img.shape], [img.affine] and the
    data buffer. *)
Record Nifti : Type := {
  img_shape : list Z;
  img_affine : affine;
  img_buf : list float
}.

(** [nib.Nifti1Image(data, affine=...)] for a 4-D array. *)
Definition Nifti1Image (g : ndarray) (S : affine) : Nifti :=
  let '(sx, sy, sz, st) := nd_shape g in
  {| img_shape := [sx; sy; sz; st]; img_affine := S; img_buf := nd_buf g |}.

(** The data array of a 4-D image. *)
Definition get_fdata (n : Nifti) : result ndarray :=
  match img_shape n with
  | [sx; sy; sz; st] => Ok {| nd_shape := (sx, sy, sz, st); nd_buf := img_buf n |}
  | _ => Raise ValueError
  end.

(** The state a method call runs in: the object it is called on and the
    image files on disk. *)
Record World : Type := {
  w_self : Brain;
  w_files : gmap string Nifti
}.

(** A computation that reads and writes the world and may raise; the world
    it leaves behind is there whether it raised or not. *)
Definition M (A : Type) : Type := World -> result A * World.

Definition ret {A} (a : A) : M A := fun w => (Ok a, w).

Definition bind {A B} (m : M A) (k : A -> M B) : M B :=
  fun w =>
    match m w with
    | (Ok a, w') => k a w'
    | (Raise e, w') => (Raise e, w')
    end.

Definition lift {A} (r : result A) : M A := fun w => (r, w).

Notation "'do' x <- m ; k" := (bind m (fun x => k))
  (at level 10, x pattern, m at level 100, k at level 200).

(** [self.get_locs()], that is [self.locs.as_matrix()] *)
Definition get_locs : M (list vec3) := fun w => (Ok (locs (w_self w)), w).

(** [self.data.as_matrix()] *)
Definition data_as_matrix : M matrix := fun w => (Ok (data (w_self w)), w).

(** [nib.load(path)] *)
Definition nib_load (path : string) : M Nifti :=
  fun w =>
    match w_files w !! path with
    | Some img => (Ok img, w)
    | None => (Raise FileNotFoundError, w)
    end.

(** [nifti.to_filename(path)] *)
Definition to_filename (n : Nifti) (path : string) : M unit :=
  fun w => (Ok tt, {| w_self := w_self w; w_files := <[path := n]> (w_files w) |}).

(** ** Reconstruction: [Brain.to_nii] *)

(** The rows of [np.array(np.dot(R - S[:3, 3], Sinv), dtype='int')]. *)
Definition map_locs (R : list vec3) (S : affine) (Sinv : mat3) : list ivec3 :=
  map (fun r => vcast (vdot (vsub r (affine_translation S)) Sinv)) R.

Definition imax3 (p q : ivec3) : ivec3 :=
  let '(px, py, pz) := p in
  let '(qx, qy, qz) := q in
  (Z.max px qx, Z.max py qy, Z.max pz qz).

(** [np.max(locs, axis=0)]; numpy refuses to reduce over no rows. *)
Definition max_axis0 (l : list ivec3) : result ivec3 :=
  match l with
  | [] => Raise ValueError
  | p :: ps => Ok (fold_left imax3 ps p)
  end.

(** [np.max(np.vstack([np.max(locs, axis=0) + 1, img.shape[0:3]]), axis=0)];
    the two rows stack only when the image has three axes or more. *)
Definition grid_shape (l : list ivec3) (shape : list Z) : result ivec3 :=
  try m <- max_axis0 l;
  let '(mx, my, mz) := m in
  match firstn 3 shape with
  | [tx; ty; tz] =>
      Ok (Z.max (wrap64 (mx + 1)) tx,
          Z.max (wrap64 (my + 1)) ty,
          Z.max (wrap64 (mz + 1)) tz)
  | _ => Raise ValueError
  end.

(** The body of the two loops, for time sample [i] and electrode [j]. *)
Definition accumulate_one (l : list ivec3) (Y : matrix) (i j : nat)
    (dc : ndarray * ndarray) : result (ndarray * ndarray) :=
  let '(data, counts) := dc in
  try p <- locs_get l j;
  let '(a, b, c) := p in
  try y <- matrix_get Y i j;
  try data' <- iadd data (a, b, c, Z.of_nat i) y;
  try counts' <- iadd counts (a, b, c, Z.of_nat i) 1%float;
  Ok (data', counts').

(** [for i in range(Y.shape[0]): for j in range(R.shape[0]): ...] *)
Definition accumulate (l : list ivec3) (Y : matrix) (nrows ncols : nat)
    (dc : ndarray * ndarray) : result (ndarray * ndarray) :=
  for_each (range nrows)
    (fun i => for_each (range ncols) (fun j => accumulate_one l Y i j)) dc.

Section Reconstruction.

(** [np.linalg.inv], numpy's LAPACK-backed inverse; it raises
    [LinAlgError] on a singular matrix. *)
Variable linalg_inv : mat3 -> result mat3.

(** [os.path.dirname(os.path.abspath(__file__))] *)
Variable package_dir : string.

Definition default_template : string :=
  (package_dir ++ "/data/gray_mask_20mm_brain.nii")%string.

Definition to_nii (filepath template : option string) : M Nifti :=
  let template :=
    match template with
    | None => default_template
    | Some t => t
    end in
  do img <- nib_load template;
  do R <- get_locs;
  do Y <- data_as_matrix;
  do img <- nib_load template;
  let S := img_affine img in
  do Sinv <- lift (linalg_inv (affine_linear S));
  let l := map_locs R S Sinv in
  do shape <- lift (grid_shape l (img_shape img));
  let '(sx, sy, sz) := shape in
  do data <- lift (np_zeros (sx, sy, sz, Z.of_nat (length Y)));
  do counts <- lift (np_zeros (nd_shape data));
  do dc <- lift (accumulate l Y (length Y) (length R) (data, counts));
  let '(data, counts) := dc in
  let data := mask_nan (np_divide data counts) in
  let nifti := Nifti1Image data (img_affine img) in
  (* [if filepath:] is false for [None] and for the empty string *)
  do _ <- match filepath with
          | Some path =>
              if String.eqb path "" then ret tt else to_filename nifti path
          | None => ret tt
          end;
  ret nifti.

End Reconstruction.

(** A reference inverse for 3x3 matrices (adjugate over determinant, in
    binary64), exact on the identity.  It stands in for [np.linalg.inv] in
    the concrete runs below. *)
Definition inv3 (A : mat3) : result mat3 :=
  let '((a, b, c), (d, e, f), (g, h, i)) := A in
  let det := (a * (e * i - f * h) - b * (d * i - f * g) + c * (d * h - e * g))%float in
  if PrimFloat.eqb det 0%float then Raise LinAlgError
  else
    Ok (((e * i - f * h) / det, (c * h - b * i) / det, (b * f - c * e) / det),
        ((f * g - d * i) / det, (a * i - c * g) / det, (c * d - a * f) / det),
        ((d * h - e * g) / det, (b * g - a * h) / det, (a * e - b * d) / det))%float.

Definition identity3 : mat3 :=
  ((1, 0, 0), (0, 1, 0), (0, 0, 1))%float.

Definition identity_affine : affine :=
  ((1, 0, 0, 0), (0, 1, 0, 0), (0, 0, 1, 0), (0, 0, 0, 1))%float.

(** ** Channel quality: kurtosis and the exclusion mask *)

(** [self.kurtosis > threshold], the [thresh_bool] of [Brain.plot_data]:
    numpy's element-wise IEEE comparison. *)
Definition thresh_bool (self : Brain) (threshold : float) : list bool :=
  map (fun k => PrimFloat.ltb threshold k) (kurtosis self).

(** [Y.iloc[:, ~thresh_bool]]: the columns of a row that the mask keeps. *)
Definition keep_columns (mask : list bool) (row : list float) : list float :=
  map snd (filter (fun bv => negb (fst bv) = true) (zip mask row)).

Definition fsum (l : list float) : float := fold_left PrimFloat.add l 0%float.

Definition fmean (l : list float) : float :=
  (fsum l / float_of_nat (length l))%float.

(** Modelled from the spec: the kurtosis helper [kurt_vals] of
    [_helpers/stats.py] is not among the sources.  The spec gives it as the
    fourth standardized moment of each channel's time series, one value per
    channel; a channel of zero variance divides zero by zero. *)
Definition channel_kurtosis (x : list float) : float :=
  let mu := fmean x in
  let sq := map (fun v => ((v - mu) * (v - mu))%float) x in
  let m2 := fmean sq in
  let m4 := fmean (map (fun d => (d * d)%float) sq) in
  (m4 / (m2 * m2))%float.

(** [Y.shape[1]] *)
Definition ncols (Y : matrix) : nat :=
  match Y with
  | [] => 0%nat
  | row :: _ => length row
  end.

Definition column (Y : matrix) (j : nat) : list float :=
  omap (fun row : list float => row !! j) Y.

Definition kurt_vals (Y : matrix) : list float :=
  map (fun j => channel_kurtosis (column Y j)) (range (ncols Y)).

(** ** Construction: [Brain.__init__] *)

(** The [sessions] argument: absent, one label for all samples, or an array
    of labels. *)
Inductive sessions_arg : Type :=
| SessNone
| SessLabel (l : label)
| SessArray (a : list label).

(** The [sample_rate] argument, by the type tests [__init__] applies. *)
Inductive rate_arg : Type :=
| RateNone                      (* [None] *)
| RateList (l : list float)     (* a [list] of numbers *)
| RateNested (a : matrix)       (* the [list] [[a]] holding one 2-D ndarray *)
| RateNumber (r : float)        (* an [int] or a [float] *)
| RateTuple (l : list float)    (* another numeric sequence: tuple, ndarray *)
| RateStr (s : string).         (* a string *)

(** [len(self.sessions.unique())] *)
Definition n_unique (l : list label) : nat := length (remove_dups l).

Definition init_sessions (sessions : sessions_arg) (T : nat) : list label :=
  match sessions with
  | SessLabel l => repeat l T
  | SessNone => repeat (LInt 1) T
  | SessArray a => a
  end.

(** The two messages passed to [warnings.warn]. *)
Definition no_rate_warning : string :=
  "No sample rate given.  Number of seconds cant be computed".

Definition bad_rate_warning : string :=
  "Format of sample rate not recognized. Number of seconds cannot be computed.Setting sample rate to None".

(** Lines 110-128: [self.sample_rate], with the warnings raised on the
    way. *)
Definition init_sample_rate (sample_rate : rate_arg) (sess : list label)
  : result (option (list float)) * list string :=
  let check (l : list float) : result (option (list float)) :=
    if Nat.eqb (length l) (n_unique sess) then Ok (Some l)
    else Raise AssertionError in
  match sample_rate with
  | RateList [] => (Raise IndexError, [])          (* [sample_rate[0]] *)
  | RateList l => (check l, [])
  | RateNested [] => (Raise IndexError, [])        (* [sample_rate[0][0]] *)
  | RateNested (row :: _) => (check row, [])
  | RateNone =>
      (Ok None, [no_rate_warning])
  | RateNumber r => (Ok (Some [r]), [])
  | RateTuple _ | RateStr _ =>
      (Ok None, [bad_rate_warning])
  end.

(** [np.array(sample_rate)] as a divisor: a 0-d array for a number, a 1-d
    array for a sequence of numbers, a 3-d array with one block for the list
    holding one 2-d array; dividing by the array made of [None] or of a
    string is a [TypeError]. *)
Definition rate_array (sample_rate : rate_arg) : result farray :=
  match sample_rate with
  | RateNone => Raise TypeError
  | RateList l => Ok (Rank1 l)
  | RateNested a => Ok (Rank3 [a])
  | RateNumber r => Ok (Rank0 r)
  | RateTuple l => Ok (Rank1 l)
  | RateStr _ => Raise TypeError
  end.

(** Lines 118-120 and 130-131: [self.n_secs].  The test of line 130 is on
    the argument [sample_rate], not on [self.sample_rate]. *)
Definition init_n_secs (sample_rate : rate_arg) (T : nat)
  : result (option farray) :=
  match sample_rate with
  | RateNone => Ok None
  | _ =>
      try a <- rate_array sample_rate;
      Ok (Some (farray_map (fun r => (float_of_nat T / r)%float) a))
  end.

Section Construction.

(** [time.strftime("%c")] at the time of the call. *)
Variable now : string.

Definition __init__ (data_arg : matrix) (locs_arg : list vec3)
    (sessions_arg : sessions_arg) (sample_rate_arg : rate_arg)
    (meta_arg : option (gmap string string)) (date_created_arg : option string)
  : result Brain * list string :=
  let T := length data_arg in
  let sess := init_sessions sessions_arg T in
  let '(rate, warnings) := init_sample_rate sample_rate_arg sess in
  (try rate <- rate;
   try secs <- init_n_secs sample_rate_arg T;
   Ok {| data := data_arg;
         locs := locs_arg;
         sessions := sess;
         sample_rate := rate;
         n_secs := secs;
         meta := meta_arg;
         date_created :=
           match date_created_arg with
           | None => now
           | Some d => if String.eqb d "" then now else d
           end;
         n_elecs := ncols data_arg;
         n_sessions := n_unique sess;
         kurtosis := kurt_vals data_arg |},
   warnings).

End Construction.

(** ** Saving: [Brain.save] *)

(** The dict [save] writes, lines 240-247. *)
Record bo_dict : Type := {
  bo_data : matrix;
  bo_locs : list vec3;
  bo_sessions : list label;
  bo_sample_rate : option (list float);
  bo_meta : option (gmap string string);
  bo_date_created : string
}.

(** [dd.io.save(fname, bo, compression=compression)], on the files deepdish
    has written, by name. *)
Definition dd_io_save (fname : string) (bo : bo_dict) (compression : string)
    (fs : gmap string bo_dict) : gmap string bo_dict :=
  <[fname := bo]> fs.

(** [fname[-3:]]: the last three characters, or all of a shorter string. *)
Definition last3 (fname : string) : string :=
  String.substring (String.length fname - 3) 3 fname.

Definition save (self : Brain) (fname compression : string) (fs : gmap string bo_dict)
  : gmap string bo_dict :=
  let bo := {| bo_data := data self;
               bo_locs := locs self;
               bo_sessions := sessions self;
               bo_sample_rate := sample_rate self;
               bo_meta := meta self;
               bo_date_created := date_created self |} in
  let fname := if negb (String.eqb (last3 fname) ".bo")
               then (fname ++ ".bo")%string else fname in
  dd_io_save fname bo compression fs.

(** ** Loading by extension: [_load_from_path] *)

(** [s.split('.')] *)
Fixpoint split_dot (s : string) : list string :=
  match s with
  | EmptyString => [EmptyString]
  | String c s' =>
      if Ascii.eqb c "."%char then EmptyString :: split_dot s'
      else match split_dot s' with
           | x :: xs => String c x :: xs
           | [] => [String c EmptyString]
           end
  end.

(** What a call of [_load_from_path] ends in: an object, one of the two
    [ValueError]s of the function with its message, or what a loader
    raised. *)
Inductive load_result (E A : Type) : Type :=
| Loaded (a : A)
| LoadValueError (msg : string)
| LoaderRaised (e : E).
Arguments Loaded {E A} a.
Arguments LoadValueError {E A} msg.
Arguments LoaderRaised {E A} e.

Inductive loaded (B Mo N : Type) : Type :=
| LoadedBrain (b : B)
| LoadedModel (m : Mo)
| LoadedNifti (n : N).
Arguments LoadedBrain {B Mo N} b.
Arguments LoadedModel {B Mo N} m.
Arguments LoadedNifti {B Mo N} n.

Section Loading.

(** The content of a deepdish file, the three classes of the package, and
    what their loaders raise. *)
Context {D B Mo N E : Type}.

(** [dd.io.load] *)
Variable dd_io_load : string -> E + D.
(** [Brain] and [Model] called with the loaded dict as keyword arguments,
    and [Nifti(fpath)] *)
Variable Brain_kw : D -> E + B.
Variable Model_kw : D -> E + Mo.
Variable Nifti_path : string -> E + N.

Definition _load_from_path (fpath : string) : load_result E (loaded B Mo N) :=
  match last (split_dot fpath) with
  | None => LoadValueError "Must specify a file extension."
  | Some ext =>
      if String.eqb ext "bo" then
        match dd_io_load fpath with
        | inl e => LoaderRaised e
        | inr d =>
            match Brain_kw d with
            | inl e => LoaderRaised e
            | inr b => Loaded (LoadedBrain b)
            end
        end
      else if String.eqb ext "mo" then
        match dd_io_load fpath with
        | inl e => LoaderRaised e
        | inr d =>
            match Model_kw d with
            | inl e => LoaderRaised e
            | inr m => Loaded (LoadedModel m)
            end
        end
      else if String.eqb ext "nii" then
        match Nifti_path fpath with
        | inl e => LoaderRaised e
        | inr n => Loaded (LoadedNifti n)
        end
      else LoadValueError "Filetype not recognized. Must be .bo, .mo or .nii."
  end.

End Loading.

(** * Vocabulary of the statements

    Definitions the theorems below are stated with: they name parts of what
    [to_nii] computes and the concrete inputs of the examples. *)

#[global] Instance exn_eq_dec : EqDecision exn.
Proof. solve_decision. Defined.

#[global] Instance result_eq_dec {A} `{EqDecision A} : EqDecision (result A).
Proof. solve_decision. Defined.

(** The voxel an index triple addresses in a grid of shape [s]. *)
Definition voxel_of (s : shape4) (p : ivec3) : result ivec3 :=
  let '(sx, sy, sz, _) := s in
  let '(a, b, c) := p in
  try a' <- norm_index sx a;
  try b' <- norm_index sy b;
  try c' <- norm_index sz c;
  Ok (a', b', c').

Definition in_grid (s : shape4) (i : index4) : Prop :=
  let '(sx, sy, sz, st) := s in
  let '(a, b, c, d) := i in
  0 <= a < sx /\ 0 <= b < sy /\ 0 <= c < sz /\ 0 <= d < st.

(** What electrode [j] adds at time sample [i] to the buffer slot [o]. *)
Definition hits (s : shape4) (l : list ivec3) (i j o : nat) : bool :=
  match l !! j with
  | Some (a, b, c) => bool_decide (flat_index s (a, b, c, Z.of_nat i) = Ok o)
  | None => false
  end.

Definition contribution (s : shape4) (l : list ivec3) (Y : matrix)
    (i o j : nat) : option float :=
  if hits s l i j o then
    match matrix_get Y i j with
    | Ok y => Some y
    | Raise _ => None
    end
  else None.

Definition add_some (v : float) (c : option float) : float :=
  match c with
  | Some y => (v + y)%float
  | None => v
  end.

Definition incr_some (v : float) (c : option float) : float :=
  match c with
  | Some _ => (v + 1)%float
  | None => v
  end.

(** The voxel electrode [j] falls in, if it falls in one. *)
Definition electrode_cell (s : shape4) (l : list ivec3) (j : nat) : option ivec3 :=
  match l !! j with
  | Some p =>
      match voxel_of s p with
      | Ok v => Some v
      | Raise _ => None
      end
  | None => None
  end.

(** The values, in electrode order, of the electrodes among the first [C]
    that fall in voxel [cell], at time sample [t]. *)
Definition cell_values (s : shape4) (l : list ivec3) (Y : matrix) (t : nat)
    (cell : ivec3) (C : nat) : list float :=
  omap (fun j =>
          if bool_decide (electrode_cell s l j = Some cell) then
            match matrix_get Y t j with
            | Ok y => Some y
            | Raise _ => None
            end
          else None) (range C).

(** The count a cell reaches: one added per contributing electrode. *)
Definition fcount (vals : list float) : float :=
  fold_left (fun n _ => (n + 1)%float) vals 0%float.

(** Everything [to_nii] computes once the template image is loaded and its
    linear block inverted. *)
Definition reconstruct (R : list vec3) (Y : matrix) (img : Nifti) (Sinv : mat3)
  : result Nifti :=
  let l := map_locs R (img_affine img) Sinv in
  try shape <- grid_shape l (img_shape img);
  let '(sx, sy, sz) := shape in
  try data <- np_zeros (sx, sy, sz, Z.of_nat (length Y));
  try counts <- np_zeros (nd_shape data);
  try dc <- accumulate l Y (length Y) (length R) (data, counts);
  let '(data, counts) := dc in
  Ok (Nifti1Image (mask_nan (np_divide data counts)) (img_affine img)).

(** The template [to_nii] loads. *)
Definition template_path (package_dir : string) (template : option string) : string :=
  match template with
  | None => default_template package_dir
  | Some t => t
  end.

(** The world after the optional [nifti.to_filename(filepath)]. *)
Definition saved (filepath : option string) (n : Nifti) (w : World) : World :=
  match filepath with
  | Some path =>
      if String.eqb path "" then w
      else {| w_self := w_self w; w_files := <[path := n]> (w_files w) |}
  | None => w
  end.

(** The integer indices [to_nii] maps the electrodes to. *)
Definition mapped_locs (inv : mat3 -> result mat3) (pkg : string)
    (template : option string) (w : World) : result (list ivec3) :=
  match w_files w !! template_path pkg template with
  | None => Raise FileNotFoundError
  | Some img =>
      try Sinv <- inv (affine_linear (img_affine img));
      Ok (map_locs (locs (w_self w)) (img_affine img) Sinv)
  end.

Definition px (p : ivec3) : Z := fst (fst p).
Definition py (p : ivec3) : Z := snd (fst p).
Definition pz (p : ivec3) : Z := snd p.

(** [m] is the largest value of one coordinate over the rows of [l]. *)
Definition axis_max (proj : ivec3 -> Z) (l : list ivec3) (m : Z) : Prop :=
  (forall p, p ∈ l -> proj p <= m) /\ (exists p, p ∈ l /\ proj p = m).

Definition scenario_locs : list vec3 := [(0, 0, 0); (0, 0, 0); (10, 10, 10)]%float.
Definition scenario_data : matrix := [[1; 2; 3]%float].

Definition scenario_brain : Brain :=
  {| data := scenario_data;
     locs := scenario_locs;
     sessions := [LInt 1];
     sample_rate := Some [1%float];
     n_secs := Some (Rank1 [1%float]);
     meta := None;
     date_created := "Thu Jan  1 00:00:00 1970";
     n_elecs := 3;
     n_sessions := 1;
     kurtosis := [nan; nan; nan] |}.

Definition scenario_template : Nifti :=
  {| img_shape := [5; 5; 5];
     img_affine := identity_affine;
     img_buf := replicate 125 0%float |}.

Definition scenario_world : World :=
  {| w_self := scenario_brain;
     w_files := {[ "template.nii"%string := scenario_template ]} |}.

(** The grid the scenario is to produce: 11 x 11 x 11 x 1, zero except for
    1.5 in the first cell and 3 in the last. *)
Definition scenario_grid : ndarray :=
  {| nd_shape := (11, 11, 11, 1);
     nd_buf := <[1330%nat := 3%float]>
                 (<[0%nat := 1.5%float]> (replicate 1331 0%float)) |}.

Definition scenario_output : Nifti := Nifti1Image scenario_grid identity_affine.

(** The value and count grids of the scenario before the division. *)
Definition scenario_zeros : ndarray :=
  {| nd_shape := (11, 11, 11, 1); nd_buf := replicate 1331 0%float |}.

Definition scenario_sums : ndarray :=
  {| nd_shape := (11, 11, 11, 1);
     nd_buf := <[1330%nat := 3%float]>
                 (<[0%nat := 3%float]> (replicate 1331 0%float)) |}.

Definition scenario_counts : ndarray :=
  {| nd_shape := (11, 11, 11, 1);
     nd_buf := <[1330%nat := 1%float]>
                 (<[0%nat := 2%float]> (replicate 1331 0%float)) |}.

Definition scenario_indices : list ivec3 := [(0, 0, 0); (0, 0, 0); (10, 10, 10)].

(** An electrode six voxels below the template's first plane. *)
Definition low_brain : Brain :=
  {| data := [[1%float]];
     locs := [((-6)%float, 0%float, 0%float)];
     sessions := [LInt 1];
     sample_rate := Some [1%float];
     n_secs := Some (Rank1 [1%float]);
     meta := None;
     date_created := "Thu Jan  1 00:00:00 1970";
     n_elecs := 1;
     n_sessions := 1;
     kurtosis := [nan] |}.

Definition low_world : World :=
  {| w_self := low_brain;
     w_files := {[ "template.nii"%string := scenario_template ]} |}.

(** Two electrodes in one voxel, one of them with a NaN sample. *)
Definition nan_brain : Brain :=
  {| data := [[nan; 1%float]];
     locs := [(0, 0, 0); (0, 0, 0)]%float;
     sessions := [LInt 1];
     sample_rate := Some [1%float];
     n_secs := Some (Rank1 [1%float]);
     meta := None;
     date_created := "Thu Jan  1 00:00:00 1970";
     n_elecs := 2;
     n_sessions := 1;
     kurtosis := [nan; nan] |}.

Definition nan_world : World :=
  {| w_self := nan_brain;
     w_files := {[ "template.nii"%string := scenario_template ]} |}.

(** A brain whose only channel is constant over three samples. *)
Definition constant_brain : Brain :=
  {| data := [[1]; [1]; [1]]%float;
     locs := [(0, 0, 0)]%float;
     sessions := [LInt 1; LInt 1; LInt 1];
     sample_rate := Some [1%float];
     n_secs := Some (Rank1 [3%float]);
     meta := None;
     date_created := "Thu Jan  1 00:00:00 1970";
     n_elecs := 1;
     n_sessions := 1;
     kurtosis := kurt_vals [[1]; [1]; [1]]%float |}.

(** The name [save] writes under. *)
Definition save_name (fname : string) : string :=
  if String.eqb (last3 fname) ".bo" then fname else (fname ++ ".bo")%string.

(** The dict [save] writes for an object. *)
Definition save_dict (self : Brain) : bo_dict :=
  {| bo_data := data self;
     bo_locs := locs self;
     bo_sessions := sessions self;
     bo_sample_rate := sample_rate self;
     bo_meta := meta self;
     bo_date_created := date_created self |}.

(** [Brain] called with a dict as [save] writes it as keyword arguments: the
    session labels are a Series, the sample rate is [None] or a list. *)
Definition Brain_from_dict (now : string) (d : bo_dict)
  : result Brain * list string :=
  __init__ now (bo_data d) (bo_locs d) (SessArray (bo_sessions d))
    (match bo_sample_rate d with
     | None => RateNone
     | Some l => RateList l
     end)
    (bo_meta d) (Some (bo_date_created d)).

(** The string has no dot. *)
Fixpoint dotless (s : string) : bool :=
  match s with
  | EmptyString => true
  | String c s' => negb (Ascii.eqb c "."%char) && dotless s'
  end.

(** Reading back what [dd_io_save] wrote; [missing] is what [dd.io.load]
    raises for a file that is not there. *)
Definition read_bo {E} (missing : string -> E) (fs : gmap string bo_dict) (fpath : string)
  : E + bo_dict :=
  match fs !! fpath with
  | Some d => inr d
  | None => inl (missing fpath)
  end.

(** A brain with neither electrodes nor samples. *)
Definition empty_brain : Brain :=
  {| data := [];
     locs := [];
     sessions := [];
     sample_rate := None;
     n_secs := None;
     meta := None;
     date_created := "Thu Jan  1 00:00:00 1970";
     n_elecs := 0;
     n_sessions := 0;
     kurtosis := [] |}.

Definition empty_world : World :=
  {| w_self := empty_brain;
     w_files := {[ "template.nii"%string := scenario_template ]} |}.

(** A template image with two axes only. *)
Definition flat_template : Nifti :=
  {| img_shape := [5; 5];
     img_affine := identity_affine;
     img_buf := replicate 25 0%float |}.

Definition flat_world : World :=
  {| w_self := scenario_brain;
     w_files := {[ "flat.nii"%string := flat_template ]} |}.

(** An electrode two voxels below the template's first plane. *)
Definition wrapped_brain : Brain :=
  {| data := [[7%float]];
     locs := [((-2)%float, 0%float, 0%float)];
     sessions := [LInt 1];
     sample_rate := Some [1%float];
     n_secs := Some (Rank1 [1%float]);
     meta := None;
     date_created := "Thu Jan  1 00:00:00 1970";
     n_elecs := 1;
     n_sessions := 1;
     kurtosis := [nan] |}.

Definition wrapped_world : World :=
  {| w_self := wrapped_brain;
     w_files := {[ "template.nii"%string := scenario_template ]} |}.

(** One electrode and no samples. *)
Definition silent_brain : Brain :=
  {| data := [];
     locs := [(0, 0, 0)%float];
     sessions := [];
     sample_rate := None;
     n_secs := None;
     meta := None;
     date_created := "Thu Jan  1 00:00:00 1970";
     n_elecs := 0;
     n_sessions := 0;
     kurtosis := [] |}.

Definition silent_world : World :=
  {| w_self := silent_brain;
     w_files := {[ "template.nii"%string := scenario_template ]} |}.

(** The scenario with a second time sample. *)
Definition two_sample_brain : Brain :=
  {| data := [[1; 2; 3]; [4; 5; 6]]%float;
     locs := scenario_locs;
     sessions := [LInt 1; LInt 1];
     sample_rate := Some [1%float];
     n_secs := Some (Rank1 [2%float]);
     meta := None;
     date_created := "Thu Jan  1 00:00:00 1970";
     n_elecs := 3;
     n_sessions := 1;
     kurtosis := [nan; nan; nan] |}.

Definition two_sample_world : World :=
  {| w_self := two_sample_brain;
     w_files := {[ "template.nii"%string := scenario_template ]} |}.

(** A template whose voxels are 2 units wide and whose origin is at
    (1, 1, 1). *)
Definition scaled_affine : affine :=
  ((2, 0, 0, 1), (0, 2, 0, 1), (0, 0, 2, 1), (0, 0, 0, 1))%float.

Definition scaled_template : Nifti :=
  {| img_shape := [5; 5; 5];
     img_affine := scaled_affine;
     img_buf := replicate 125 0%float |}.

(** The inverse of the linear block of [scaled_affine]. *)
Definition halves3 : mat3 :=
  ((0.5, 0, 0), (0, 0.5, 0), (0, 0, 0.5))%float.

(** One electrode at (6.5, -4.5, 1). *)
Definition scaled_brain : Brain :=
  {| data := [[1%float]];
     locs := [(6.5, -4.5, 1)%float];
     sessions := [LInt 1];
     sample_rate := Some [1%float];
     n_secs := Some (Rank1 [1%float]);
     meta := None;
     date_created := "Thu Jan  1 00:00:00 1970";
     n_elecs := 1;
     n_sessions := 1;
     kurtosis := [nan] |}.

Definition scaled_world : World :=
  {| w_self := scaled_brain;
     w_files := {[ "scaled.nii"%string := scaled_template ]} |}.

(** One electrode ten billion billion units out, beyond every int64. *)
Definition far_brain : Brain :=
  {| data := [[1%float]];
     locs := [(10000000000000000000, 0, 0)%float];
     sessions := [LInt 1];
     sample_rate := Some [1%float];
     n_secs := Some (Rank1 [1%float]);
     meta := None;
     date_created := "Thu Jan  1 00:00:00 1970";
     n_elecs := 1;
     n_sessions := 1;
     kurtosis := [nan] |}.

Definition far_world : World :=
  {| w_self := far_brain;
     w_files := {[ "template.nii"%string := scenario_template ]} |}.

(** * Properties *)

Example cast_down : float_to_int64 2.75%float = 2.
Proof. reflexivity. Qed.

Example cast_up : float_to_int64 (-2.75)%float = -2.
Proof. reflexivity. Qed.

Example cast_nan : float_to_int64 nan = INT64_MIN.
Proof. reflexivity. Qed.

Example inv3_identity : inv3 identity3 = Ok identity3.
Proof. reflexivity. Qed.

Example kurtosis_constant_channel :
  kurt_vals [[1]; [1]; [1]]%float = [nan].
Proof. reflexivity. Qed.

(** ** Subscripts and offsets *)

Lemma rbind_ok {A B} (m : result A) (k : A -> result B) (b : B) :
  rbind m k = Ok b -> exists a, m = Ok a /\ k a = Ok b.
Proof. destruct m as [a | e]; simpl; [eauto | discriminate]. Qed.

Lemma norm_index_ok (n k k' : Z) :
  norm_index n k = Ok k' -> 0 <= k' < n /\ (k' = k \/ k' = k + n).
Proof.
  unfold norm_index.
  destruct (Z.leb_spec 0 k), (Z.ltb_spec k n); simpl;
    destruct (Z.leb_spec (- n) k), (Z.ltb_spec k 0); simpl;
    intros [= <-] || discriminate; lia.
Qed.

Lemma norm_index_in_range (n k : Z) : 0 <= k < n -> norm_index n k = Ok k.
Proof.
  intros H. unfold norm_index.
  destruct (Z.leb_spec 0 k), (Z.ltb_spec k n); simpl; try lia. reflexivity.
Qed.

Lemma digit_inj (x1 x2 d1 d2 n : Z) :
  0 <= d1 < n -> 0 <= d2 < n -> x1 * n + d1 = x2 * n + d2 ->
  x1 = x2 /\ d1 = d2.
Proof.
  intros H1 H2 H. apply (Z.div_mod_unique n); [left; exact H1 | left; exact H2 | lia].
Qed.

Lemma offset4_inj (s : shape4) (i1 i2 : index4) :
  in_grid s i1 -> in_grid s i2 -> offset4 s i1 = offset4 s i2 -> i1 = i2.
Proof.
  destruct s as [[[sx sy] sz] st], i1 as [[[a1 b1] c1] d1], i2 as [[[a2 b2] c2] d2].
  simpl. intros (Ha1 & Hb1 & Hc1 & Hd1) (Ha2 & Hb2 & Hc2 & Hd2) H.
  apply digit_inj in H as [H ->]; [| assumption ..].
  apply digit_inj in H as [H ->]; [| assumption ..].
  apply digit_inj in H as [-> ->]; [| assumption ..].
  reflexivity.
Qed.

Lemma offset4_bound (s : shape4) (i : index4) :
  in_grid s i -> 0 <= offset4 s i < size4 s.
Proof.
  destruct s as [[[sx sy] sz] st], i as [[[a b] c] d].
  simpl. intros (Ha & Hb & Hc & Hd).
  assert (H1 : 0 <= a * sy + b <= sx * sy - 1) by nia.
  assert (H2 : 0 <= (a * sy + b) * sz + c <= sx * sy * sz - 1) by nia.
  nia.
Qed.

Lemma flat_index_in_grid (s : shape4) (i : index4) :
  in_grid s i -> flat_index s i = Ok (Z.to_nat (offset4 s i)).
Proof.
  destruct s as [[[sx sy] sz] st], i as [[[a b] c] d].
  intros (Ha & Hb & Hc & Hd). unfold flat_index.
  rewrite !norm_index_in_range by assumption. reflexivity.
Qed.

(** ** The two loops, one buffer slot at a time *)

Lemma iadd_spec (g g' : ndarray) (i : index4) (y : float) :
  iadd g i y = Ok g' ->
  exists o0,
    flat_index (nd_shape g) i = Ok o0 /\
    nd_shape g' = nd_shape g /\
    forall o,
      nd_buf g' !! o =
      (fun v => if bool_decide (flat_index (nd_shape g) i = Ok o)
                then (v + y)%float else v) <$> nd_buf g !! o.
Proof.
  unfold iadd. intros H. apply rbind_ok in H as (o0 & Hi & H).
  destruct (nd_buf g !! o0) as [v |] eqn:Hv; [| discriminate].
  injection H as <-. exists o0. simpl. repeat split; [assumption |].
  intros o. rewrite Hi.
  destruct (decide (o0 = o)) as [<- | Hne].
  - rewrite list_lookup_insert_eq by (eapply lookup_lt_Some; eassumption).
    rewrite Hv. simpl. rewrite bool_decide_eq_true_2 by reflexivity. reflexivity.
  - rewrite list_lookup_insert_ne by assumption.
    rewrite bool_decide_eq_false_2 by congruence.
    destruct (nd_buf g !! o); reflexivity.
Qed.

Lemma accumulate_one_spec (s : shape4) (l : list ivec3) (Y : matrix)
    (i j : nat) (d c d' c' : ndarray) :
  accumulate_one l Y i j (d, c) = Ok (d', c') ->
  nd_shape d = s -> nd_shape c = s ->
  nd_shape d' = s /\ nd_shape c' = s /\
  forall o,
    nd_buf d' !! o = (fun v => add_some v (contribution s l Y i o j)) <$> nd_buf d !! o /\
    nd_buf c' !! o = (fun v => incr_some v (contribution s l Y i o j)) <$> nd_buf c !! o.
Proof.
  unfold accumulate_one, locs_get, contribution, hits. intros H Hd Hc.
  unfold ivec3 in *.
  destruct (l !! j) as [[[a b] c0] |] eqn:Hl; simpl in H; [| discriminate].
  apply rbind_ok in H as (y & Hy & H).
  apply rbind_ok in H as (d1 & Hd1 & H).
  apply rbind_ok in H as (c1 & Hc1 & H).
  injection H as <- <-.
  apply iadd_spec in Hd1 as (o1 & _ & Hs1 & Hb1).
  apply iadd_spec in Hc1 as (o2 & _ & Hs2 & Hb2).
  rewrite Hd in *. rewrite Hc in *.
  repeat split; try assumption.
  - rewrite Hb1. destruct (nd_buf d !! o) as [v |]; simpl; [| reflexivity].
    rewrite Hy. destruct (bool_decide _); reflexivity.
  - rewrite Hb2. destruct (nd_buf c !! o) as [v |]; simpl; [| reflexivity].
    rewrite Hy. destruct (bool_decide _); reflexivity.
Qed.

Lemma inner_loop_spec (s : shape4) (l : list ivec3) (Y : matrix) (i : nat)
    (js : list nat) (d c d' c' : ndarray) :
  for_each js (accumulate_one l Y i) (d, c) = Ok (d', c') ->
  nd_shape d = s -> nd_shape c = s ->
  nd_shape d' = s /\ nd_shape c' = s /\
  forall o,
    nd_buf d' !! o =
      (fun v => fold_left (fun v j => add_some v (contribution s l Y i o j)) js v)
        <$> nd_buf d !! o /\
    nd_buf c' !! o =
      (fun v => fold_left (fun v j => incr_some v (contribution s l Y i o j)) js v)
        <$> nd_buf c !! o.
Proof.
  revert d c. induction js as [| j js IH]; intros d c H Hd Hc; simpl in H.
  - injection H as <- <-. repeat split; try assumption.
    + simpl. destruct (nd_buf d !! o); reflexivity.
    + simpl. destruct (nd_buf c !! o); reflexivity.
  - apply rbind_ok in H as ([d1 c1] & H1 & H).
    destruct (accumulate_one_spec s l Y i j d c d1 c1 H1 Hd Hc) as (Hd1 & Hc1 & Hb).
    destruct (IH d1 c1 H Hd1 Hc1) as (Hd' & Hc' & Hb').
    repeat split; try assumption.
    + rewrite (proj1 (Hb' o)), (proj1 (Hb o)).
      destruct (nd_buf d !! o); reflexivity.
    + rewrite (proj2 (Hb' o)), (proj2 (Hb o)).
      destruct (nd_buf c !! o); reflexivity.
Qed.

Lemma outer_loop_spec (s : shape4) (l : list ivec3) (Y : matrix)
    (ts js : list nat) (d c d' c' : ndarray) :
  for_each ts (fun i => for_each js (accumulate_one l Y i)) (d, c) = Ok (d', c') ->
  nd_shape d = s -> nd_shape c = s ->
  nd_shape d' = s /\ nd_shape c' = s /\
  forall o,
    nd_buf d' !! o =
      (fun v => fold_left (fun v i =>
         fold_left (fun v j => add_some v (contribution s l Y i o j)) js v) ts v)
        <$> nd_buf d !! o /\
    nd_buf c' !! o =
      (fun v => fold_left (fun v i =>
         fold_left (fun v j => incr_some v (contribution s l Y i o j)) js v) ts v)
        <$> nd_buf c !! o.
Proof.
  revert d c. induction ts as [| i ts IH]; intros d c H Hd Hc; simpl in H.
  - injection H as <- <-. repeat split; try assumption.
    + simpl. destruct (nd_buf d !! o); reflexivity.
    + simpl. destruct (nd_buf c !! o); reflexivity.
  - apply rbind_ok in H as ([d1 c1] & H1 & H).
    destruct (inner_loop_spec s l Y i js d c d1 c1 H1 Hd Hc) as (Hd1 & Hc1 & Hb).
    destruct (IH d1 c1 H Hd1 Hc1) as (Hd' & Hc' & Hb').
    repeat split; try assumption.
    + rewrite (proj1 (Hb' o)), (proj1 (Hb o)).
      destruct (nd_buf d !! o); reflexivity.
    + rewrite (proj2 (Hb' o)), (proj2 (Hb o)).
      destruct (nd_buf c !! o); reflexivity.
Qed.

(** ** One cell of the accumulated grids *)

Lemma fold_left_omap {A B V} (g : V -> option B -> V) (f : A -> option B)
    (xs : list A) (v : V) :
  (forall v, g v None = v) ->
  fold_left (fun v x => g v (f x)) xs v =
  fold_left (fun v y => g v (Some y)) (omap f xs) v.
Proof.
  intros Hg. revert v. induction xs as [| x xs IH]; intros v; simpl; [reflexivity |].
  destruct (f x) as [y |]; simpl; rewrite ?Hg; apply IH.
Qed.

Lemma fold_left_id {A V} (F : V -> A -> V) (xs : list A) (v : V) :
  (forall x v, x ∈ xs -> F v x = v) -> fold_left F xs v = v.
Proof.
  revert v. induction xs as [| x xs IH]; intros v H; simpl; [reflexivity |].
  rewrite H by left. apply IH. intros y w Hy. apply H. right. exact Hy.
Qed.

Lemma fold_left_single {A V} (F : V -> A -> V) (xs : list A) (t : A) (v : V) :
  NoDup xs -> t ∈ xs ->
  (forall x w, x ∈ xs -> x <> t -> F w x = w) ->
  fold_left F xs v = F v t.
Proof.
  intros Hnd. revert v. induction Hnd as [| x xs Hx Hnd IH]; intros v Ht H.
  - inversion Ht.
  - simpl. apply elem_of_cons in Ht as [<- | Ht].
    + apply fold_left_id. intros y w Hy. apply H; [right; exact Hy |].
      intros Heq. subst y. contradiction.
    + rewrite H; [| left | intros Heq; subst x; contradiction].
      apply IH; [exact Ht |]. intros y w Hy. apply H. right. exact Hy.
Qed.

Lemma flat_index_split (s : shape4) (a b c d : Z) :
  flat_index s (a, b, c, d) =
  try v <- voxel_of s (a, b, c);
  try d' <- norm_index (snd s) d;
  Ok (Z.to_nat (offset4 s (v, d'))).
Proof.
  destruct s as [[[sx sy] sz] st]. unfold flat_index, voxel_of. simpl.
  destruct (norm_index sx a); simpl; [| reflexivity].
  destruct (norm_index sy b); simpl; [| reflexivity].
  destruct (norm_index sz c); simpl; reflexivity.
Qed.

Lemma voxel_of_in_grid (s : shape4) (p v : ivec3) (d : Z) :
  voxel_of s p = Ok v -> 0 <= d < snd s -> in_grid s (v, d).
Proof.
  destruct s as [[[sx sy] sz] st], p as [[a b] c]. unfold voxel_of. intros H Hd.
  apply rbind_ok in H as (a' & Ha & H).
  apply rbind_ok in H as (b' & Hb & H).
  apply rbind_ok in H as (c' & Hc & H).
  injection H as <-.
  apply norm_index_ok in Ha, Hb, Hc. simpl in *. lia.
Qed.

Lemma hits_cell (s : shape4) (l : list ivec3) (i j t : nat) (cell : ivec3) :
  in_grid s (cell, Z.of_nat t) -> Z.of_nat i < snd s ->
  hits s l i j (Z.to_nat (offset4 s (cell, Z.of_nat t))) =
  bool_decide (i = t /\ electrode_cell s l j = Some cell).
Proof.
  intros Hg Hi. unfold hits, electrode_cell. unfold ivec3 in *.
  destruct (l !! j) as [[[a b] c] |]; [| symmetry; apply bool_decide_eq_false_2; intros [_ H]; discriminate H].
  rewrite flat_index_split.
  destruct (voxel_of s (a, b, c)) as [v | e] eqn:Hv; simpl.
  - rewrite norm_index_in_range by lia. simpl.
    pose proof (voxel_of_in_grid s (a, b, c) v (Z.of_nat i) Hv ltac:(lia)) as Hg'.
    pose proof (offset4_bound s _ Hg) as Hb.
    pose proof (offset4_bound s _ Hg') as Hb'.
    apply bool_decide_ext. split.
    + intros [= H]. apply Z2Nat.inj in H; [| lia ..].
      apply offset4_inj in H; [| assumption ..].
      injection H as -> H. apply Nat2Z.inj in H. auto.
    + intros [-> [= ->]]. reflexivity.
  - transitivity false.
    + first [reflexivity | apply bool_decide_eq_false_2; discriminate].
    + symmetry. apply bool_decide_eq_false_2. intros [_ H]. discriminate H.
Qed.

Lemma np_zeros_spec (s : shape4) (z : ndarray) :
  np_zeros s = Ok z ->
  z = {| nd_shape := s; nd_buf := replicate (Z.to_nat (size4 s)) 0%float |}.
Proof.
  destruct s as [[[sx sy] sz] st]. unfold np_zeros.
  destruct (_ || _); [discriminate |]. intros [= <-]. reflexivity.
Qed.

Lemma omap_ext_in {A B} (f g : A -> option B) (xs : list A) :
  (forall x, x ∈ xs -> f x = g x) -> omap f xs = omap g xs.
Proof.
  induction xs as [| x xs IH]; intros H; [reflexivity |].
  assert (IH' : omap f xs = omap g xs).
  { apply IH. intros y Hy. apply H. right. exact Hy. }
  simpl. rewrite (H x) by left. destruct (g x); [f_equal |]; exact IH'.
Qed.

Lemma contribution_other_time (s : shape4) (l : list ivec3) (Y : matrix)
    (i j t : nat) (cell : ivec3) :
  in_grid s (cell, Z.of_nat t) -> Z.of_nat i < snd s -> i <> t ->
  contribution s l Y i (Z.to_nat (offset4 s (cell, Z.of_nat t))) j = None.
Proof.
  intros Hg Hi Hne. unfold contribution. rewrite hits_cell by assumption.
  rewrite bool_decide_eq_false_2; [reflexivity |]. intros [H _]. contradiction.
Qed.

Lemma contribution_same_time (s : shape4) (l : list ivec3) (Y : matrix)
    (j t : nat) (cell : ivec3) :
  in_grid s (cell, Z.of_nat t) ->
  contribution s l Y t (Z.to_nat (offset4 s (cell, Z.of_nat t))) j =
  if bool_decide (electrode_cell s l j = Some cell) then
    match matrix_get Y t j with
    | Ok y => Some y
    | Raise _ => None
    end
  else None.
Proof.
  intros Hg. unfold contribution. rewrite hits_cell; [| assumption |].
  - rewrite (bool_decide_ext (t = t /\ electrode_cell s l j = Some cell)
               (electrode_cell s l j = Some cell)) by tauto.
    reflexivity.
  - destruct s as [[[sx sy] sz] st], cell as [[a b] c]. simpl in *. lia.
Qed.

(** The accumulated value and count of one cell. *)
Lemma accumulate_cell (l : list ivec3) (Y : matrix) (T C : nat)
    (sx sy sz : Z) (z1 z2 d c : ndarray) (cell : ivec3) (t : nat) :
  let s := (sx, sy, sz, Z.of_nat T) in
  np_zeros s = Ok z1 -> np_zeros s = Ok z2 ->
  accumulate l Y T C (z1, z2) = Ok (d, c) ->
  in_grid s (cell, Z.of_nat t) ->
  nd_shape d = s /\ nd_shape c = s /\
  nd_buf d !! Z.to_nat (offset4 s (cell, Z.of_nat t)) =
    Some (fsum (cell_values s l Y t cell C)) /\
  nd_buf c !! Z.to_nat (offset4 s (cell, Z.of_nat t)) =
    Some (fcount (cell_values s l Y t cell C)).
Proof.
  intros s Hz1 Hz2 Hacc Hg.
  apply np_zeros_spec in Hz1, Hz2. subst z1 z2.
  unfold accumulate in Hacc.
  eapply outer_loop_spec in Hacc as (Hd & Hc & Hb); [| reflexivity ..].
  simpl in Hd, Hc. split; [exact Hd |]. split; [exact Hc |].
  pose proof (offset4_bound s _ Hg) as Hbound.
  set (o := Z.to_nat (offset4 s (cell, Z.of_nat t))) in *.
  assert (Ht : (t < T)%nat).
  { destruct cell as [[a b] c0]. simpl in Hg. lia. }
  assert (Hz : replicate (Z.to_nat (size4 s)) 0%float !! o = Some 0%float).
  { apply lookup_replicate_2. unfold o. lia. }
  destruct (Hb o) as [Hbd Hbc]. cbn [nd_buf] in Hbd, Hbc.
  rewrite Hz in Hbd, Hbc. cbn [fmap option_fmap option_map] in Hbd, Hbc.
  assert (Hsingle : forall (g : float -> option float -> float),
             (forall v, g v None = v) ->
             fold_left (fun v i => fold_left (fun v j => g v (contribution s l Y i o j))
                                     (range C) v) (range T) 0%float =
             fold_left (fun v y => g v (Some y)) (cell_values s l Y t cell C) 0%float).
  { intros g Hg0.
    rewrite (fold_left_single _ (range T) t).
    - rewrite (fold_left_omap g) by exact Hg0.
      unfold cell_values. f_equal. apply omap_ext_in. intros j _.
      apply contribution_same_time. exact Hg.
    - apply NoDup_seq.
    - apply elem_of_seq. lia.
    - intros i w Hi Hne. apply fold_left_id. intros j v _.
      apply elem_of_seq in Hi.
      unfold o. rewrite contribution_other_time; [apply Hg0 | exact Hg | simpl; lia | exact Hne]. }
  split.
  - rewrite Hbd. f_equal. apply (Hsingle add_some). reflexivity.
  - rewrite Hbc. f_equal. apply (Hsingle incr_some). reflexivity.
Qed.

(** ** [to_nii] through its pure part *)

Local Opaque np_zeros accumulate grid_shape map_locs.

Lemma to_nii_unfold (inv : mat3 -> result mat3) (pkg : string)
    (filepath template : option string) (w : World) :
  to_nii inv pkg filepath template w =
  match w_files w !! template_path pkg template with
  | None => (Raise FileNotFoundError, w)
  | Some img =>
      match (try Sinv <- inv (affine_linear (img_affine img));
             reconstruct (locs (w_self w)) (data (w_self w)) img Sinv) with
      | Ok n => (Ok n, saved filepath n w)
      | Raise e => (Raise e, w)
      end
  end.
Proof.
  unfold to_nii, template_path, bind, nib_load, get_locs, data_as_matrix, lift.
  cbv beta zeta.
  set (p := match template with Some t => t | None => default_template pkg end).
  destruct (w_files w !! p) as [img |] eqn:Hp; [| reflexivity].
  cbv beta iota. rewrite Hp. cbv beta iota.
  destruct (inv (affine_linear (img_affine img))) as [Sinv | e]; simpl; [| reflexivity].
  unfold reconstruct.
  destruct (grid_shape _ _) as [[[sx sy] sz] | e]; simpl; [| reflexivity].
  destruct (np_zeros (sx, sy, sz, _)) as [z | e] eqn:Hz; simpl; [| reflexivity].
  destruct (np_zeros (nd_shape z)) as [z' | e]; simpl; [| reflexivity].
  destruct (accumulate _ _ _ _ _) as [[d c] | e]; simpl; [| reflexivity].
  unfold saved, ret, to_filename.
  destruct filepath as [path |]; [| reflexivity].
  destruct (String.eqb path ""); reflexivity.
Qed.

Local Transparent np_zeros accumulate grid_shape map_locs.

Lemma Nifti1Image_affine (g : ndarray) (S : affine) :
  img_affine (Nifti1Image g S) = S.
Proof. unfold Nifti1Image. destruct (nd_shape g) as [[[sx sy] sz] st]. reflexivity. Qed.

Lemma Nifti1Image_shape (g : ndarray) (S : affine) (sx sy sz st : Z) :
  nd_shape g = (sx, sy, sz, st) -> img_shape (Nifti1Image g S) = [sx; sy; sz; st].
Proof. unfold Nifti1Image. intros ->. reflexivity. Qed.

Lemma Nifti1Image_fdata (g : ndarray) (S : affine) :
  get_fdata (Nifti1Image g S) = Ok g.
Proof.
  unfold Nifti1Image, get_fdata. destruct g as [[[[sx sy] sz] st] buf]. reflexivity.
Qed.

Lemma accumulate_shape (s : shape4) (l : list ivec3) (Y : matrix) (T C : nat)
    (z1 z2 d c : ndarray) :
  accumulate l Y T C (z1, z2) = Ok (d, c) ->
  nd_shape z1 = s -> nd_shape z2 = s ->
  nd_shape d = s /\ nd_shape c = s.
Proof.
  intros H H1 H2. unfold accumulate in H.
  eapply outer_loop_spec in H as (Hd & Hc & _); eauto.
Qed.

(** What a successful [reconstruct] went through. *)
Lemma reconstruct_ok (R : list vec3) (Y : matrix) (img : Nifti) (Sinv : mat3)
    (n : Nifti) :
  reconstruct R Y img Sinv = Ok n ->
  exists sx sy sz z d c,
    let l := map_locs R (img_affine img) Sinv in
    let s := (sx, sy, sz, Z.of_nat (length Y)) in
    grid_shape l (img_shape img) = Ok (sx, sy, sz) /\
    np_zeros s = Ok z /\
    accumulate l Y (length Y) (length R) (z, z) = Ok (d, c) /\
    n = Nifti1Image (mask_nan (np_divide d c)) (img_affine img).
Proof.
  unfold reconstruct. intros H.
  apply rbind_ok in H as ([[sx sy] sz] & Hs & H).
  apply rbind_ok in H as (z & Hz & H).
  apply rbind_ok in H as (z' & Hz' & H).
  apply rbind_ok in H as ([d c] & Hacc & H).
  injection H as <-.
  pose proof (np_zeros_spec _ _ Hz) as Ez. 
  assert (Hsz : nd_shape z = (sx, sy, sz, Z.of_nat (length Y))) by (rewrite Ez; reflexivity).
  rewrite Hsz in Hz'. 
  assert (z' = z) by congruence. subst z'.
  exists sx, sy, sz, z, d, c. simpl. auto.
Qed.

Lemma grid_shape_idem (l : list ivec3) (shape : list Z) (sx sy sz st : Z) :
  grid_shape l shape = Ok (sx, sy, sz) ->
  grid_shape l [sx; sy; sz; st] = Ok (sx, sy, sz).
Proof.
  unfold grid_shape. intros H.
  apply rbind_ok in H as ([[mx my] mz] & Hm & H). rewrite Hm. simpl.
  destruct (firstn 3 shape) as [| tx [| ty [| tz [| ? ?]]]]; try discriminate.
  injection H as <- <- <-.
  f_equal. f_equal; [f_equal |]; lia.
Qed.

Lemma reconstruct_idem (R : list vec3) (Y : matrix) (img : Nifti) (Sinv : mat3)
    (n : Nifti) :
  reconstruct R Y img Sinv = Ok n ->
  img_affine n = img_affine img /\ reconstruct R Y n Sinv = Ok n.
Proof.
  intros H. pose proof H as H0.
  apply reconstruct_ok in H as (sx & sy & sz & z & d & c & Hs & Hz & Hacc & ->).
  cbv zeta in Hs, Hz, Hacc.
  rewrite Nifti1Image_affine. split; [reflexivity |].
  assert (Hd : nd_shape d = (sx, sy, sz, Z.of_nat (length Y))).
  { refine (proj1 (accumulate_shape _ _ _ _ _ _ _ _ _ Hacc _ _));
      rewrite (np_zeros_spec _ _ Hz); reflexivity. }
  unfold reconstruct at 1. rewrite Nifti1Image_affine.
  rewrite (Nifti1Image_shape _ _ sx sy sz (Z.of_nat (length Y))) by exact Hd.
  rewrite (grid_shape_idem _ _ _ _ _ _ Hs). cbn [rbind].
  rewrite Hz. cbn [rbind].
  replace (nd_shape z) with (sx, sy, sz, Z.of_nat (length Y))
    by (rewrite (np_zeros_spec _ _ Hz); reflexivity).
  rewrite Hz. cbn [rbind].
  rewrite Hacc. reflexivity.
Qed.

Lemma map_locs_length (R : list vec3) (S : affine) (Sinv : mat3) :
  length (map_locs R S Sinv) = length R.
Proof. unfold map_locs. apply length_map. Qed.

Lemma to_nii_ok (inv : mat3 -> result mat3) (pkg : string)
    (filepath template : option string) (w w' : World) (n : Nifti) :
  to_nii inv pkg filepath template w = (Ok n, w') ->
  exists img l sx sy sz z d c,
    let Y := data (w_self w) in
    let s := (sx, sy, sz, Z.of_nat (length Y)) in
    w_files w !! template_path pkg template = Some img /\
    mapped_locs inv pkg template w = Ok l /\
    length l = length (locs (w_self w)) /\
    grid_shape l (img_shape img) = Ok (sx, sy, sz) /\
    np_zeros s = Ok z /\
    accumulate l Y (length Y) (length (locs (w_self w))) (z, z) = Ok (d, c) /\
    n = Nifti1Image (mask_nan (np_divide d c)) (img_affine img) /\
    w' = saved filepath n w.
Proof.
  rewrite to_nii_unfold. unfold mapped_locs.
  destruct (w_files w !! _) as [img |]; [| discriminate].
  destruct (inv _) as [Sinv | e]; cbn [rbind]; [| discriminate].
  destruct (reconstruct _ _ _ _) as [n' | e] eqn:Hr; [| discriminate].
  intros [= <- <-].
  apply reconstruct_ok in Hr as (sx & sy & sz & z & d & c & Hs & Hz & Hacc & ->).
  cbv zeta in Hs, Hz, Hacc.
  exists img, (map_locs (locs (w_self w)) (img_affine img) Sinv), sx, sy, sz, z, d, c.
  cbv zeta. rewrite map_locs_length.
  repeat split; try assumption; reflexivity.
Qed.

Lemma to_nii_run (inv : mat3 -> result mat3) (pkg : string)
    (filepath template : option string) (w : World) (img : Nifti)
    (l : list ivec3) (sx sy sz : Z) (z d c : ndarray) :
  let Y := data (w_self w) in
  w_files w !! template_path pkg template = Some img ->
  mapped_locs inv pkg template w = Ok l ->
  grid_shape l (img_shape img) = Ok (sx, sy, sz) ->
  np_zeros (sx, sy, sz, Z.of_nat (length Y)) = Ok z ->
  accumulate l Y (length Y) (length (locs (w_self w))) (z, z) = Ok (d, c) ->
  fst (to_nii inv pkg filepath template w) =
  Ok (Nifti1Image (mask_nan (np_divide d c)) (img_affine img)).
Proof.
  intros Y Himg Hl Hs Hz Hacc. rewrite to_nii_unfold.
  unfold mapped_locs in Hl. rewrite Himg in *.
  destruct (inv _) as [Sinv | e]; cbn [rbind] in *; [| discriminate].
  injection Hl as <-. unfold reconstruct. fold Y.
  rewrite Hs. cbn [rbind]. rewrite Hz. cbn [rbind].
  replace (nd_shape z) with (sx, sy, sz, Z.of_nat (length Y))
    by (rewrite (np_zeros_spec _ _ Hz); reflexivity).
  rewrite Hz. cbn [rbind]. rewrite Hacc. reflexivity.
Qed.

Lemma omap_none {A B} (f : A -> option B) (xs : list A) :
  (forall x, x ∈ xs -> f x = None) -> omap f xs = [].
Proof.
  intros H. rewrite (omap_ext_in f (fun _ => None) xs H). clear H.
  induction xs as [| x xs IH]; [reflexivity | exact IH].
Qed.

(** The averaged, masked value of one cell of the output grid. *)
Lemma output_cell (l : list ivec3) (Y : matrix) (T C : nat)
    (sx sy sz : Z) (z d c : ndarray) (cell : ivec3) (t : nat) :
  let s := (sx, sy, sz, Z.of_nat T) in
  let vals := cell_values s l Y t cell C in
  np_zeros s = Ok z ->
  accumulate l Y T C (z, z) = Ok (d, c) ->
  in_grid s (cell, Z.of_nat t) ->
  getitem d (cell, Z.of_nat t) = Ok (fsum vals) /\
  getitem c (cell, Z.of_nat t) = Ok (fcount vals) /\
  getitem (mask_nan (np_divide d c)) (cell, Z.of_nat t) =
    Ok (nan_to_zero (fsum vals / fcount vals)).
Proof.
  intros s vals Hz Hacc Hg.
  destruct (accumulate_cell l Y T C sx sy sz z z d c cell t Hz Hz Hacc Hg)
    as (Hd & Hc & Hbd & Hbc).
  fold s in Hd, Hc, Hbd, Hbc. fold vals in Hbd, Hbc.
  unfold getitem. cbn [nd_shape mask_nan np_divide nd_buf].
  rewrite Hd, Hc, (flat_index_in_grid s _ Hg). cbn [rbind].
  rewrite Hbd, Hbc. repeat split.
  rewrite list_lookup_fmap, lookup_zip_with, Hbd.
  cbn [mbind option_bind]. rewrite Hbc. reflexivity.
Qed.

(** ** The object and the files across a call *)

Lemma saved_self (filepath : option string) (n : Nifti) (w : World) :
  w_self (saved filepath n w) = w_self w.
Proof.
  unfold saved. destruct filepath as [path |]; [| reflexivity].
  destruct (String.eqb path ""); reflexivity.
Qed.

Lemma saved_twice (filepath : option string) (n : Nifti) (w : World) :
  saved filepath n (saved filepath n w) = saved filepath n w.
Proof.
  unfold saved. destruct filepath as [path |]; [| reflexivity].
  destruct (String.eqb path "") eqn:E; [reflexivity |].
  cbn [w_self w_files]. rewrite insert_insert_eq. reflexivity.
Qed.

(** C10: [to_nii] leaves the [Brain] object it is called on as it found it,
    whether it returns or raises: the object after the call is the object
    before it, and so are its fields [data], [locs], [sessions],
    [sample_rate], [kurtosis] and [meta]. *)
Theorem to_nii_leaves_brain_unchanged (inv : mat3 -> result mat3) (pkg : string)
    (filepath template : option string) (w : World) :
  let self' := w_self (snd (to_nii inv pkg filepath template w)) in
  self' = w_self w /\
  data self' = data (w_self w) /\
  locs self' = locs (w_self w) /\
  sessions self' = sessions (w_self w) /\
  sample_rate self' = sample_rate (w_self w) /\
  kurtosis self' = kurtosis (w_self w) /\
  meta self' = meta (w_self w).
Proof.
  assert (H : w_self (snd (to_nii inv pkg filepath template w)) = w_self w).
  { rewrite to_nii_unfold.
    destruct (w_files w !! _) as [img |]; [| reflexivity].
    destruct (try Sinv <- inv _; reconstruct _ _ _ Sinv) as [n | e]; [| reflexivity].
    apply saved_self. }
  cbv zeta. rewrite H. repeat split.
Qed.

(** C9: running [to_nii] a second time, in the world the first run left
    behind, gives the same result as the first run (the same image, bit for
    bit, or the same exception) and leaves that world as it is; nothing the
    first call did changes what the second one computes. *)
Theorem to_nii_twice_same_output (inv : mat3 -> result mat3) (pkg : string)
    (filepath template : option string) (w : World) :
  let run1 := to_nii inv pkg filepath template w in
  let run2 := to_nii inv pkg filepath template (snd run1) in
  fst run2 = fst run1 /\ snd run2 = snd run1.
Proof.
  cbv zeta.
  assert (H : to_nii inv pkg filepath template
                (snd (to_nii inv pkg filepath template w)) =
              to_nii inv pkg filepath template w);
    [| rewrite H; split; reflexivity].
  rewrite (to_nii_unfold inv pkg filepath template w).
  set (p := template_path pkg template).
  destruct (w_files w !! p) as [img |] eqn:Hp.
  2: { cbn [snd]. rewrite to_nii_unfold. fold p. rewrite Hp. reflexivity. }
  destruct (inv (affine_linear (img_affine img))) as [Sinv | e] eqn:Hinv;
    cbn [rbind].
  2: { cbn [snd]. rewrite to_nii_unfold. fold p. rewrite Hp, Hinv. reflexivity. }
  destruct (reconstruct _ _ img Sinv) as [n | e] eqn:Hr.
  2: { cbn [snd]. rewrite to_nii_unfold. fold p. rewrite Hp, Hinv. cbn [rbind].
       rewrite Hr. reflexivity. }
  cbn [snd]. rewrite to_nii_unfold. fold p. rewrite saved_self.
  destruct (reconstruct_idem _ _ _ _ _ Hr) as [Haff Hidem].
  assert (Hload : exists img', w_files (saved filepath n w) !! p = Some img' /\
                    img_affine img' = img_affine img /\
                    reconstruct (locs (w_self w)) (data (w_self w)) img' Sinv = Ok n).
  { unfold saved. destruct filepath as [path |]; [| eauto].
    destruct (String.eqb path ""); [eauto |]. cbn [w_files].
    destruct (decide (path = p)) as [-> | Hne].
    - rewrite lookup_insert_eq. eauto.
    - rewrite lookup_insert_ne by exact Hne. eauto. }
  destruct Hload as (img' & -> & Haff' & Hr').
  rewrite Haff', Hinv. cbn [rbind]. rewrite Hr', saved_twice. reflexivity.
Qed.

(** ** Sums and means in binary64 *)

Lemma spec_float_eq_dec (x y : spec_float) : {x = y} + {x <> y}.
Proof.
  decide equality;
    try apply Bool.bool_dec; try apply Z.eq_dec; apply Pos.eq_dec.
Qed.

Lemma zero_add (z v : float) :
  z = 0%float \/ z = neg_zero ->
  Prim2SF v <> S754_zero true -> (z + v)%float = v.
Proof.
  intros Hz Hv. apply Prim2SF_inj. rewrite FloatAxioms.add_spec. unfold SF64add, SFadd.
  assert (Hz' : exists s, Prim2SF z = S754_zero s).
  { destruct Hz as [-> | ->]; [exists false | exists true]; reflexivity. }
  destruct Hz' as [s ->].
  destruct (Prim2SF v) as [[|] | | |]; try reflexivity; try contradiction.
  destruct s; reflexivity.
Qed.

Lemma neg_zero_spec (v : float) : Prim2SF v = S754_zero true -> v = neg_zero.
Proof. intros H. apply Prim2SF_inj. rewrite H. reflexivity. Qed.

Lemma nan_to_zero_number (x : float) :
  is_nan x = false -> nan_to_zero x = x.
Proof. unfold nan_to_zero. intros ->. reflexivity. Qed.

(** Starting the sum at [0.0] changes nothing, except for the sign of the
    zero that two values [-0.0] add up to. *)
Lemma sum_from_zero (v1 v2 : float) :
  (0 + v1 + v2)%float = (v1 + v2)%float \/ (v1 = neg_zero /\ v2 = neg_zero).
Proof.
  destruct (spec_float_eq_dec (Prim2SF v1) (S754_zero true)) as [E1 | E1].
  - apply neg_zero_spec in E1. subst v1.
    change (0 + neg_zero)%float with 0%float.
    destruct (spec_float_eq_dec (Prim2SF v2) (S754_zero true)) as [E2 | E2].
    + apply neg_zero_spec in E2. subst v2. right. split; reflexivity.
    + left. rewrite !zero_add by auto. reflexivity.
  - left. rewrite (zero_add 0 v1) by auto. reflexivity.
Qed.

Lemma omap_two {B} (f : nat -> option B) (C j1 j2 : nat) (y1 y2 : B) :
  (j1 < j2 < C)%nat -> f j1 = Some y1 -> f j2 = Some y2 ->
  (forall j, (j < C)%nat -> j <> j1 -> j <> j2 -> f j = None) ->
  omap f (seq 0 C) = [y1; y2].
Proof.
  intros Hlt H1 H2 Hn.
  replace C with (j1 + (1 + ((j2 - j1 - 1) + (1 + (C - j2 - 1)))))%nat by lia.
  rewrite !seq_app, !omap_app. simpl seq.
  rewrite (omap_none f (seq 0 j1)).
  2: { intros j Hj. apply elem_of_seq in Hj. apply Hn; lia. }
  rewrite (omap_none f (seq _ (j2 - j1 - 1))).
  2: { intros j Hj. apply elem_of_seq in Hj. apply Hn; lia. }
  rewrite (omap_none f (seq _ (C - j2 - 1))).
  2: { intros j Hj. apply elem_of_seq in Hj. apply Hn; lia. }
  replace (0 + j1)%nat with j1 by lia.
  replace (j1 + 1 + (j2 - j1 - 1))%nat with j2 by lia.
  simpl. rewrite H1, H2. reflexivity.
Qed.

(** ** The loops succeed when every electrode addresses a cell *)





(** C4, as the code has it: every cell of the returned grid holds, at every
    time sample, the sum of the values of the electrodes that fall in it
    (added in electrode order, starting from zero) divided by a count that
    was incremented once per such electrode, with a NaN quotient replaced by
    zero.  For exactly two electrodes with values [v1] and [v2] this is
    [(v1 + v2) / 2] up to IEEE equality whenever that mean is not NaN, and
    zero when it is NaN. *)
Theorem colliding_electrodes_are_averaged (inv : mat3 -> result mat3)
    (pkg : string) (filepath template : option string) (w w' : World)
    (n : Nifti) :
  to_nii inv pkg filepath template w = (Ok n, w') ->
  exists l g,
    mapped_locs inv pkg template w = Ok l /\
    get_fdata n = Ok g /\
    let s := nd_shape g in
    let Y := data (w_self w) in
    let C := length (locs (w_self w)) in
    (forall cell t,
        in_grid s (cell, Z.of_nat t) ->
        let vals := cell_values s l Y t cell C in
        getitem g (cell, Z.of_nat t) = Ok (nan_to_zero (fsum vals / fcount vals))) /\
    (forall cell t j1 j2 v1 v2,
        in_grid s (cell, Z.of_nat t) ->
        (j1 < j2 < C)%nat ->
        electrode_cell s l j1 = Some cell ->
        electrode_cell s l j2 = Some cell ->
        (forall j, (j < C)%nat -> j <> j1 -> j <> j2 ->
                   electrode_cell s l j <> Some cell) ->
        matrix_get Y t j1 = Ok v1 ->
        matrix_get Y t j2 = Ok v2 ->
        exists out,
          getitem g (cell, Z.of_nat t) = Ok out /\
          out = nan_to_zero ((0 + v1 + v2) / (0 + 1 + 1))%float /\
          (PrimFloat.is_nan ((v1 + v2) / 2)%float = false ->
           PrimFloat.eqb out ((v1 + v2) / 2)%float = true) /\
          (PrimFloat.is_nan ((v1 + v2) / 2)%float = true -> out = 0%float)).
Proof.
  intros H.
  apply to_nii_ok in H
    as (img & l & sx & sy & sz & z & d & c & Himg & Hl & Hlen & Hs & Hz & Hacc & -> & _).
  cbv zeta in Hz, Hacc.
  exists l, (mask_nan (np_divide d c)).
  split; [exact Hl |]. split; [apply Nifti1Image_fdata |].
  assert (Hshape : nd_shape (mask_nan (np_divide d c)) =
                   (sx, sy, sz, Z.of_nat (length (data (w_self w))))).
  { cbn [nd_shape mask_nan np_divide].
    refine (proj1 (accumulate_shape _ _ _ _ _ _ _ _ _ Hacc _ _));
      rewrite (np_zeros_spec _ _ Hz); reflexivity. }
  cbv zeta. rewrite Hshape.
  assert (Hcell : forall cell t,
             in_grid (sx, sy, sz, Z.of_nat (length (data (w_self w)))) (cell, Z.of_nat t) ->
             getitem (mask_nan (np_divide d c)) (cell, Z.of_nat t) =
             Ok (nan_to_zero
                   (fsum (cell_values (sx, sy, sz, Z.of_nat (length (data (w_self w))))
                            l (data (w_self w)) t cell (length (locs (w_self w)))) /
                    fcount (cell_values (sx, sy, sz, Z.of_nat (length (data (w_self w))))
                              l (data (w_self w)) t cell (length (locs (w_self w))))))).
  { intros cell t Hg.
    exact (proj2 (proj2 (output_cell l _ _ _ sx sy sz z d c cell t Hz Hacc Hg))). }
  split; [exact Hcell |].
  intros cell t j1 j2 v1 v2 Hg Hlt H1 H2 Hothers Hv1 Hv2.
  assert (Hvals : cell_values (sx, sy, sz, Z.of_nat (length (data (w_self w))))
                    l (data (w_self w)) t cell (length (locs (w_self w))) = [v1; v2]).
  { unfold cell_values. apply (omap_two _ _ j1 j2); [exact Hlt | | |].
    - rewrite bool_decide_eq_true_2 by exact H1. rewrite Hv1. reflexivity.
    - rewrite bool_decide_eq_true_2 by exact H2. rewrite Hv2. reflexivity.
    - intros j Hj Hn1 Hn2. rewrite bool_decide_eq_false_2; [reflexivity |].
      apply Hothers; assumption. }
  eexists. split; [rewrite (Hcell cell t Hg), Hvals; reflexivity |].
  split; [reflexivity |].
  change (fsum [v1; v2]) with (0 + v1 + v2)%float.
  change (fcount [v1; v2]) with 2%float.
  destruct (sum_from_zero v1 v2) as [-> | [-> ->]].
  - split.
    + intros Hnum. rewrite (nan_to_zero_number _ Hnum).
      unfold PrimFloat.is_nan in Hnum. apply negb_false_iff in Hnum. exact Hnum.
    + intros Hnan. unfold nan_to_zero. rewrite Hnan. reflexivity.
  - split; [reflexivity | discriminate].
Qed.

(** ** The range of the integer cast *)

Lemma pow2_to_pos (k : Z) : 0 <= k -> Z.pos (Z.to_pos (2 ^ k)) = 2 ^ k.
Proof. intros Hk. apply Z2Pos.id. apply Z.pow_pos_nonneg; lia. Qed.

Lemma SF_trunc_toward_zero (f : spec_float) (z : Z) (q : Q) :
  SF_trunc f = Some z -> SF_value f = Some q ->
  ((0 <= q)%Q -> z = Qfloor q) /\ ((q <= 0)%Q -> z = Qceiling q).
Proof.
  destruct f as [s | s | | s m e]; simpl; try discriminate.
  - intros [= <-] [= <-]. split; intros _; reflexivity.
  - intros [= <-] [= <-]. destruct (Z.leb_spec 0 e) as [He | He].
    + rewrite Qfloor_Z, Qceiling_Z. split; reflexivity.
    + assert (Hp : 0 < 2 ^ (- e)) by (apply Z.pow_pos_nonneg; lia).
      unfold Qceiling, Qfloor, Qopp, Qle; simpl Qnum; simpl Qden.
      rewrite pow2_to_pos by lia.
      destruct s; split; intros Hq; try lia.
      * change (Z.neg m) with (- Z.pos m). rewrite Z.quot_opp_l by lia.
        rewrite Z.opp_involutive, Z.quot_div_nonneg by lia. reflexivity.
      * rewrite Z.quot_div_nonneg by lia. reflexivity.
Qed.

Lemma digits2_pos_bound (m : positive) : Z.pos m < 2 ^ Z.pos (digits2_pos m).
Proof.
  induction m as [m IH | m IH |]; simpl digits2_pos.
  - rewrite Pos2Z.inj_succ, Z.pow_succ_r by lia. lia.
  - rewrite Pos2Z.inj_succ, Z.pow_succ_r by lia. lia.
  - reflexivity.
Qed.

Lemma valid_mantissa_bound (s : bool) (m : positive) (e : Z) :
  valid_binary (S754_finite s m e) = true -> Z.pos m < 2 ^ 53.
Proof.
  unfold SpecFloat.valid_binary, bounded, canonical_mantissa, fexp.
  intros H. apply andb_prop in H as [H _]. apply Z.eqb_eq in H.
  assert (Hd : Z.pos (digits2_pos m) <= 53).
  { change prec with 53 in H. lia. }
  eapply Z.lt_le_trans; [apply digits2_pos_bound|].
  apply Z.pow_le_mono_r; lia.
Qed.

Lemma float_to_int64_range (x : float) :
  INT64_MIN <= float_to_int64 x < INT64_MAX.
Proof.
  unfold float_to_int64.
  pose proof (Prim2SF_valid x) as Hv.
  destruct (Prim2SF x) as [s | s | | s m e];
    [simpl; split; [discriminate | reflexivity] ..|].
  simpl SF_trunc.
  apply valid_mantissa_bound in Hv.
  remember (if s then Z.neg m else Z.pos m) as num eqn:Hnum.
  remember (if 0 <=? e then num * 2 ^ e else Z.quot num (2 ^ (- e))) as z eqn:Hz.
  destruct ((INT64_MIN <=? z) && (z <=? INT64_MAX)) eqn:Hb; rewrite Hb.
  2: { split; [apply Z.le_refl | reflexivity]. }
  apply andb_prop in Hb as [Hlo Hhi].
  apply Z.leb_le in Hlo. apply Z.leb_le in Hhi.
  split; [exact Hlo|].
  assert (Hne : z <> INT64_MAX); [| lia].
  subst z num. unfold INT64_MAX. clear Hlo Hhi.
  destruct (Z.leb_spec 0 e) as [He | He].
  - destruct s; [assert (0 < 2 ^ e) by (apply Z.pow_pos_nonneg; lia); lia|].
    destruct (Z.eq_dec e 0) as [-> | Hne0].
    + rewrite Z.pow_0_r. lia.
    + replace e with (Z.succ (e - 1)) by lia.
      rewrite Z.pow_succ_r by lia. lia.
  - assert (Hp : 0 < 2 ^ (- e)) by (apply Z.pow_pos_nonneg; lia).
    destruct s.
    + change (Z.neg m) with (- Z.pos m). rewrite Z.quot_opp_l by lia.
      pose proof (Z.quot_pos (Z.pos m) (2 ^ (- e))). lia.
    + rewrite Z.quot_div_nonneg by lia.
      pose proof (Z.div_le_upper_bound (Z.pos m) (2 ^ (- e)) (Z.pos m)).
      nia.
Qed.

Lemma wrap64_small (z : Z) : INT64_MIN <= z <= INT64_MAX -> wrap64 z = z.
Proof.
  unfold wrap64, INT64_MIN, INT64_MAX. intros H.
  rewrite Z.mod_small by lia. lia.
Qed.

(** ** The grid shape *)

Lemma fold_imax3 (proj : ivec3 -> Z) (ps : list ivec3) (p : ivec3) :
  (forall p q, proj (imax3 p q) = Z.max (proj p) (proj q)) ->
  axis_max proj (p :: ps) (proj (fold_left imax3 ps p)).
Proof.
  intros Hproj. revert p. induction ps as [| q ps IH]; intros p; simpl.
  - split.
    + intros x Hx. apply list_elem_of_singleton in Hx as ->. lia.
    + exists p. split; [left | reflexivity].
  - destruct (IH (imax3 p q)) as [Hle (x & Hx & Hm)]. split.
    + intros y Hy.
      assert (Hpq : proj (imax3 p q) <= proj (fold_left imax3 ps (imax3 p q)))
        by (apply Hle; left).
      rewrite Hproj in Hpq.
      apply elem_of_cons in Hy as [-> | Hy]; [lia |].
      apply elem_of_cons in Hy as [-> | Hy]; [lia |].
      apply Hle. right. exact Hy.
    + apply elem_of_cons in Hx as [-> | Hx].
      * rewrite Hproj in Hm.
        destruct (Z.max_spec (proj p) (proj q)) as [[_ E] | [_ E]]; rewrite E in Hm.
        -- exists q. split; [right; left | exact Hm].
        -- exists p. split; [left | exact Hm].
      * exists x. split; [right; right; exact Hx | exact Hm].
Qed.

Lemma max_axis0_spec (l : list ivec3) (mx my mz : Z) :
  max_axis0 l = Ok (mx, my, mz) ->
  axis_max px l mx /\ axis_max py l my /\ axis_max pz l mz.
Proof.
  destruct l as [| p ps]; [discriminate |]. simpl. intros [= H].
  assert (Hx := fold_imax3 px ps p). assert (Hy := fold_imax3 py ps p).
  assert (Hz := fold_imax3 pz ps p). rewrite H in Hx, Hy, Hz.
  repeat split; (apply Hx || apply Hy || apply Hz);
    intros [[? ?] ?] [[? ?] ?]; reflexivity.
Qed.

Lemma map_locs_range (R : list vec3) (S : affine) (Sinv : mat3) (p : ivec3) :
  p ∈ map_locs R S Sinv ->
  INT64_MIN <= px p < INT64_MAX /\
  INT64_MIN <= py p < INT64_MAX /\
  INT64_MIN <= pz p < INT64_MAX.
Proof.
  unfold map_locs. intros H. apply list_elem_of_fmap in H as (r & -> & _).
  destruct (vdot _ _) as [[x y] z]. simpl.
  repeat split; apply float_to_int64_range.
Qed.

Lemma mapped_locs_range (inv : mat3 -> result mat3) (pkg : string)
    (template : option string) (w : World) (l : list ivec3) (p : ivec3) :
  mapped_locs inv pkg template w = Ok l -> p ∈ l ->
  INT64_MIN <= px p < INT64_MAX /\
  INT64_MIN <= py p < INT64_MAX /\
  INT64_MIN <= pz p < INT64_MAX.
Proof.
  unfold mapped_locs. destruct (w_files w !! _) as [img |]; [| discriminate].
  destruct (inv _) as [Sinv | e]; cbn [rbind]; [| discriminate].
  intros [= <-]. apply map_locs_range.
Qed.

(** C2, as the code has it: the grid [to_nii] returns has, on each spatial
    axis, the larger of the template's length on that axis and one plus the
    largest index an electrode maps to on it, and as many time slices as
    there are samples; so every electrode whose three indices are
    non-negative addresses the cell of the grid with exactly those
    indices. *)
Theorem grid_shape_covers_electrodes (inv : mat3 -> result mat3) (pkg : string)
    (filepath template : option string) (w w' : World) (n : Nifti) :
  to_nii inv pkg filepath template w = (Ok n, w') ->
  exists img l mx my mz tx ty tz,
    w_files w !! template_path pkg template = Some img /\
    mapped_locs inv pkg template w = Ok l /\
    firstn 3 (img_shape img) = [tx; ty; tz] /\
    axis_max px l mx /\ axis_max py l my /\ axis_max pz l mz /\
    let sx := Z.max tx (1 + mx) in
    let sy := Z.max ty (1 + my) in
    let sz := Z.max tz (1 + mz) in
    let st := Z.of_nat (length (data (w_self w))) in
    img_shape n = [sx; sy; sz; st] /\
    forall a b c,
      (a, b, c) ∈ l -> 0 <= a -> 0 <= b -> 0 <= c ->
      voxel_of (sx, sy, sz, st) (a, b, c) = Ok (a, b, c).
Proof.
  intros H.
  apply to_nii_ok in H
    as (img & l & sx & sy & sz & z & d & c & Himg & Hl & Hlen & Hs & Hz & Hacc & -> & _).
  cbv zeta in Hz, Hacc.
  unfold grid_shape in Hs.
  apply rbind_ok in Hs as ([[mx my] mz] & Hm & Hs).
  destruct (firstn 3 (img_shape img)) as [| tx [| ty [| tz [| ? ?]]]] eqn:Hf;
    try discriminate.
  injection Hs as <- <- <-.
  destruct (max_axis0_spec _ _ _ _ Hm) as (Hx & Hy & Hzz).
  assert (Hwx : wrap64 (mx + 1) = 1 + mx).
  { destruct Hx as [_ (p & Hp & <-)].
    destruct (mapped_locs_range _ _ _ _ _ _ Hl Hp) as (Hr & _ & _).
    rewrite wrap64_small; unfold INT64_MIN, INT64_MAX in *; lia. }
  assert (Hwy : wrap64 (my + 1) = 1 + my).
  { destruct Hy as [_ (p & Hp & <-)].
    destruct (mapped_locs_range _ _ _ _ _ _ Hl Hp) as (_ & Hr & _).
    rewrite wrap64_small; unfold INT64_MIN, INT64_MAX in *; lia. }
  assert (Hwz : wrap64 (mz + 1) = 1 + mz).
  { destruct Hzz as [_ (p & Hp & <-)].
    destruct (mapped_locs_range _ _ _ _ _ _ Hl Hp) as (_ & _ & Hr).
    rewrite wrap64_small; unfold INT64_MIN, INT64_MAX in *; lia. }
  rewrite Hwx, Hwy, Hwz in *.
  exists img, l, mx, my, mz, tx, ty, tz.
  repeat (split; [assumption || reflexivity |]).
  cbv zeta. split.
  - rewrite (Nifti1Image_shape _ _ (Z.max (1 + mx) tx) (Z.max (1 + my) ty)
               (Z.max (1 + mz) tz) (Z.of_nat (length (data (w_self w))))).
    + rewrite (Z.max_comm tx), (Z.max_comm ty), (Z.max_comm tz). reflexivity.
    + cbn [nd_shape mask_nan np_divide].
      refine (proj1 (accumulate_shape _ _ _ _ _ _ _ _ _ Hacc _ _));
        rewrite (np_zeros_spec _ _ Hz); reflexivity.
  - intros a b c0 Hin Ha Hb Hc.
    pose proof (proj1 Hx _ Hin) as Hax. pose proof (proj1 Hy _ Hin) as Hay.
    pose proof (proj1 Hzz _ Hin) as Haz. unfold px, py, pz in *. simpl in *.
    unfold voxel_of. rewrite !norm_index_in_range by lia. reflexivity.
Qed.

(** ** Coordinate mapping *)

Lemma float_to_int64_trunc (f : float) (q : Q) :
  float_value f = Some q ->
  (inject_Z INT64_MIN <= q)%Q -> (q < inject_Z (2 ^ 63))%Q ->
  ((0 <= q)%Q -> float_to_int64 f = Qfloor q) /\
  ((q <= 0)%Q -> float_to_int64 f = Qceiling q).
Proof.
  unfold float_value, float_to_int64. intros Hq Hlo Hhi.
  assert (Hz : exists z, SF_trunc (Prim2SF f) = Some z).
  { destruct (Prim2SF f); simpl in *; try discriminate; eauto. }
  destruct Hz as [z Hz]. rewrite Hz.
  destruct (SF_trunc_toward_zero _ _ _ Hz Hq) as [Hpos Hneg].
  assert (Hrange : INT64_MIN <= z <= INT64_MAX).
  { destruct (Qlt_le_dec q 0) as [Hlt | Hge].
    - rewrite (Hneg (Qlt_le_weak _ _ Hlt)). split.
      + rewrite <- (Qceiling_Z INT64_MIN). apply Qceiling_resp_le. exact Hlo.
      + apply Qlt_le_weak in Hlt. apply Qceiling_resp_le in Hlt.
        change (Qceiling 0) with 0 in Hlt. unfold INT64_MAX. lia.
    - rewrite (Hpos Hge). split.
      + apply Qfloor_resp_le in Hge. change (Qfloor 0) with 0 in Hge.
        unfold INT64_MIN. lia.
      + assert (Hlt : (inject_Z (Qfloor q) < inject_Z (2 ^ 63))%Q)
          by (eapply Qle_lt_trans; [apply Qfloor_le | exact Hhi]).
        rewrite <- Zlt_Qlt in Hlt. unfold INT64_MAX. lia. }
  destruct Hrange as [H1 H2].
  apply Z.leb_le in H1. apply Z.leb_le in H2. rewrite H1, H2. simpl.
  split; assumption.
Qed.

Lemma float_to_int64_no_value (f : float) :
  float_value f = None -> float_to_int64 f = INT64_MIN.
Proof.
  unfold float_value, float_to_int64.
  destruct (Prim2SF f); simpl; intros H; try discriminate; reflexivity.
Qed.

Lemma float_to_int64_out_of_range (f : float) (q : Q) :
  float_value f = Some q ->
  (q < inject_Z INT64_MIN)%Q \/ (inject_Z (2 ^ 63) <= q)%Q ->
  float_to_int64 f = INT64_MIN.
Proof.
  unfold float_value, float_to_int64. intros Hq Hout.
  assert (Hz : exists z, SF_trunc (Prim2SF f) = Some z).
  { destruct (Prim2SF f); simpl in *; try discriminate; eauto. }
  destruct Hz as [z Hz]. rewrite Hz.
  destruct (SF_trunc_toward_zero _ _ _ Hz Hq) as [Hpos Hneg].
  destruct Hout as [Hlo | Hhi].
  - assert (Hq0 : (q <= 0)%Q).
    { apply Qlt_le_weak. eapply Qlt_le_trans; [exact Hlo |].
      unfold Qle, INT64_MIN. simpl. lia. }
    assert (Hzle : z <= INT64_MIN).
    { rewrite (Hneg Hq0). rewrite <- (Qceiling_Z INT64_MIN).
      apply Qceiling_resp_le. apply Qlt_le_weak. exact Hlo. }
    destruct (Z.leb_spec INT64_MIN z) as [H1 | H1]; [| reflexivity].
    destruct (Z.leb_spec z INT64_MAX) as [H2 | H2]; [| reflexivity].
    simpl. lia.
  - assert (Hq0 : (0 <= q)%Q).
    { eapply Qle_trans; [| exact Hhi]. unfold Qle. simpl. lia. }
    assert (Hzge : 2 ^ 63 <= z).
    { rewrite (Hpos Hq0). rewrite <- (Qfloor_Z (2 ^ 63)).
      apply Qfloor_resp_le. exact Hhi. }
    destruct (Z.leb_spec z INT64_MAX) as [H2 | H2].
    + unfold INT64_MAX in H2. lia.
    + rewrite andb_false_r. reflexivity.
Qed.

(** C3, as the code has it: electrode [j] at [(x, y, z)] is mapped to the
    index triple whose component on each axis is the integer cast of
    [(x - t0) * b0 + (y - t1) * b1 + (z - t2) * b2], the three products summed
    from left to right, where [(t0, t1, t2)] is the translation column of the
    template's affine and [(b0, b1, b2)] the column for that axis of what
    [np.linalg.inv] returned for the affine's 3x3 block.  On a value that is
    finite and lies in [-2^63, 2^63) the cast drops the fractional part (the
    floor of a non-negative value, the ceiling of a non-positive one), so
    2.75 goes to 2 and -2.75 to -2, where rounding to nearest would give 3
    and -3; a NaN, an infinity or a value outside that range has no int64
    truncation and is cast to -2^63. *)
Theorem coordinate_mapping_truncates (inv : mat3 -> result mat3) (pkg : string)
    (template : option string) (w : World) (img : Nifti)
    (a00 a01 a02 a10 a11 a12 a20 a21 a22 t0 t1 t2 : float) (bottom : vec4)
    (b00 b01 b02 b10 b11 b12 b20 b21 b22 : float)
    (j : nat) (x y z : float) :
  w_files w !! template_path pkg template = Some img ->
  img_affine img =
    ((a00, a01, a02, t0), (a10, a11, a12, t1), (a20, a21, a22, t2), bottom) ->
  inv ((a00, a01, a02), (a10, a11, a12), (a20, a21, a22)) =
    Ok ((b00, b01, b02), (b10, b11, b12), (b20, b21, b22)) ->
  locs (w_self w) !! j = Some (x, y, z) ->
  exists l,
    mapped_locs inv pkg template w = Ok l /\
    l !! j =
      Some (float_to_int64 ((x - t0) * b00 + (y - t1) * b10 + (z - t2) * b20),
            float_to_int64 ((x - t0) * b01 + (y - t1) * b11 + (z - t2) * b21),
            float_to_int64 ((x - t0) * b02 + (y - t1) * b12 + (z - t2) * b22)) /\
    (forall f q,
        float_value f = Some q ->
        (inject_Z INT64_MIN <= q)%Q -> (q < inject_Z (2 ^ 63))%Q ->
        ((0 <= q)%Q -> float_to_int64 f = Qfloor q) /\
        ((q <= 0)%Q -> float_to_int64 f = Qceiling q)) /\
    (forall f q,
        float_value f = Some q ->
        (q < inject_Z INT64_MIN)%Q \/ (inject_Z (2 ^ 63) <= q)%Q ->
        float_to_int64 f = INT64_MIN) /\
    (forall f, float_value f = None -> float_to_int64 f = INT64_MIN) /\
    float_to_int64 2.75%float = 2 /\
    float_to_int64 (-2.75)%float = -2.
Proof.
  intros Himg Haff Hinv Hr.
  exists (map_locs (locs (w_self w)) (img_affine img)
            ((b00, b01, b02), (b10, b11, b12), (b20, b21, b22))).
  split.
  { unfold mapped_locs. rewrite Himg, Haff. cbn [affine_linear].
    rewrite Hinv. reflexivity. }
  split.
  { unfold map_locs. rewrite list_lookup_fmap. unfold vec3 in *.
    rewrite Hr, Haff. reflexivity. }
  split; [exact float_to_int64_trunc |].
  split; [exact float_to_int64_out_of_range |].
  split; [exact float_to_int64_no_value |].
  split; reflexivity.
Qed.

(** ** The concrete scenario *)

Lemma scenario_grid_cells (a b c : Z) :
  0 <= a < 11 -> 0 <= b < 11 -> 0 <= c < 11 ->
  getitem scenario_grid (a, b, c, 0) =
  Ok (if decide ((a, b, c) = (0, 0, 0)) then 1.5%float
      else if decide ((a, b, c) = (10, 10, 10)) then 3%float
      else 0%float).
Proof.
  intros Ha Hb Hc. unfold getitem.
  rewrite flat_index_in_grid by (simpl; lia).
  cbn [rbind scenario_grid nd_shape nd_buf offset4].
  set (o := Z.to_nat (((a * 11 + b) * 11 + c) * 1 + 0)).
  destruct (decide ((a, b, c) = (0, 0, 0))) as [[= -> -> ->] | H0].
  { reflexivity. }
  destruct (decide ((a, b, c) = (10, 10, 10))) as [[= -> -> ->] | H10].
  { reflexivity. }
  assert (Ho0 : o <> 0%nat).
  { unfold o. intros E. apply H0. f_equal; [f_equal |]; lia. }
  assert (Ho1 : o <> 1330%nat).
  { unfold o. intros E. apply H10. f_equal; [f_equal |]; lia. }
  rewrite list_lookup_insert_ne by congruence.
  rewrite list_lookup_insert_ne by congruence.
  rewrite lookup_replicate_2 by (unfold o; lia). reflexivity.
Qed.

(** C1: with locations [[0,0,0],[0,0,0],[10,10,10]], one sample [1,2,3], a
    5 x 5 x 5 template with the identity affine, and an inverse routine that
    returns the identity for the identity, [to_nii] returns a grid of shape
    (11,11,11,1) holding 1.5 at (0,0,0,0), 3 at (10,10,10,0) and 0 in every
    other cell. *)
Theorem concrete_scenario (inv : mat3 -> result mat3) (pkg : string)
    (filepath template : option string) (w : World) (img : Nifti) :
  inv identity3 = Ok identity3 ->
  w_files w !! template_path pkg template = Some img ->
  img_shape img = [5; 5; 5] ->
  img_affine img = identity_affine ->
  locs (w_self w) = scenario_locs ->
  data (w_self w) = scenario_data ->
  exists n g,
    fst (to_nii inv pkg filepath template w) = Ok n /\
    img_shape n = [11; 11; 11; 1] /\
    get_fdata n = Ok g /\
    nd_shape g = (11, 11, 11, 1) /\
    getitem g (0, 0, 0, 0) = Ok 1.5%float /\
    getitem g (10, 10, 10, 0) = Ok 3%float /\
    forall a b c,
      0 <= a < 11 -> 0 <= b < 11 -> 0 <= c < 11 ->
      (a, b, c) <> (0, 0, 0) -> (a, b, c) <> (10, 10, 10) ->
      getitem g (a, b, c, 0) = Ok 0%float.
Proof.
  intros Hinv Himg Hshape Haff Hlocs Hdata.
  assert (Hrec : reconstruct scenario_locs scenario_data img identity3 =
                 Ok (Nifti1Image scenario_grid identity_affine)).
  { unfold reconstruct. rewrite Haff, Hshape. vm_compute. reflexivity. }
  exists (Nifti1Image scenario_grid identity_affine), scenario_grid.
  split.
  { rewrite to_nii_unfold, Himg, Haff, Hlocs, Hdata.
    change (affine_linear identity_affine) with identity3.
    rewrite Hinv. cbn [rbind]. rewrite Hrec. reflexivity. }
  split; [reflexivity |]. split; [reflexivity |]. split; [reflexivity |].
  split; [reflexivity |]. split; [reflexivity |].
  intros a b c Ha Hb Hc H0 H10. rewrite scenario_grid_cells by assumption.
  rewrite decide_False by exact H0. rewrite decide_False by exact H10.
  reflexivity.
Qed.

(** ** The kurtosis mask and construction *)

Lemma SFcompare_refl (x : spec_float) :
  x <> S754_nan -> SFcompare x x = Some Eq.
Proof.
  destruct x as [[|] | [|] | | [|] m e]; simpl; try reflexivity; try congruence; intros _.
  - rewrite Z.compare_refl, Pos.compare_cont_refl. reflexivity.
  - rewrite Z.compare_refl, Pos.compare_cont_refl. reflexivity.
Qed.

Lemma is_nan_spec (k : float) : PrimFloat.is_nan k = true -> k = nan.
Proof.
  unfold PrimFloat.is_nan. intros H. apply negb_true_iff in H.
  rewrite FloatAxioms.eqb_spec in H. unfold SFeqb in H.
  apply Prim2SF_inj. change (Prim2SF nan) with S754_nan.
  destruct (spec_float_eq_dec (Prim2SF k) S754_nan) as [E | E]; [exact E |].
  rewrite (SFcompare_refl _ E) in H. discriminate H.
Qed.

Lemma ltb_nan (t : float) : PrimFloat.ltb t nan = false.
Proof.
  rewrite FloatAxioms.ltb_spec. unfold SFltb, SFcompare. change (Prim2SF nan) with S754_nan.
  destruct (Prim2SF t); reflexivity.
Qed.

Lemma range_length (n : nat) : length (range n) = n.
Proof. apply length_seq. Qed.

(** [__init__] stores one kurtosis value per electrode. *)
Lemma init_kurtosis_length (now : string) (data_arg : matrix)
    (locs_arg : list vec3) (sess : sessions_arg) (rate : rate_arg)
    (meta_arg : option (gmap string string)) (dc : option string)
    (bo : Brain) (ws : list string) :
  __init__ now data_arg locs_arg sess rate meta_arg dc = (Ok bo, ws) ->
  length (kurtosis bo) = n_elecs bo.
Proof.
  unfold __init__. destruct (init_sample_rate _ _) as [r ws'].
  destruct r as [r |]; cbn [rbind]; [| discriminate].
  destruct (init_n_secs _ _) as [secs |]; cbn [rbind]; [| discriminate].
  intros [= <- _]. cbn [kurtosis n_elecs].
  unfold kurt_vals. rewrite length_map. apply range_length.
Qed.

(** C6, as the code has it: the mask has one entry per electrode, and the
    entry of a channel is the IEEE comparison [kurtosis > threshold]; a NaN
    kurtosis compares false, so such a channel is not marked excluded. *)
Theorem kurtosis_mask_is_threshold_comparison (self : Brain) (threshold : float) :
  length (kurtosis self) = n_elecs self ->
  length (thresh_bool self threshold) = n_elecs self /\
  forall j k,
    kurtosis self !! j = Some k ->
    thresh_bool self threshold !! j = Some (PrimFloat.ltb threshold k) /\
    (PrimFloat.is_nan k = true -> thresh_bool self threshold !! j = Some false).
Proof.
  intros Hlen. unfold thresh_bool. split; [rewrite length_map; exact Hlen |].
  intros j k Hk. rewrite list_lookup_fmap, Hk. simpl. split; [reflexivity |].
  intros Hnan. apply is_nan_spec in Hnan. subst k. rewrite ltb_nan. reflexivity.
Qed.

(** C7, as the code has it: a sample rate given as a non-empty list must have
    one entry per distinct session label, and construction raises the
    assertion's error exactly when it has not; a sample rate given as one
    number is accepted whatever the number of distinct session labels. *)
Theorem rate_list_must_match_sessions (now : string) (data_arg : matrix)
    (locs_arg : list vec3) (sess : sessions_arg)
    (meta_arg : option (gmap string string)) (dc : option string)
    (l : list float) :
  l <> [] ->
  let k := n_unique (init_sessions sess (length data_arg)) in
  (length l <> k ->
   fst (__init__ now data_arg locs_arg sess (RateList l) meta_arg dc) =
   Raise AssertionError) /\
  (length l = k ->
   exists bo,
     fst (__init__ now data_arg locs_arg sess (RateList l) meta_arg dc) = Ok bo /\
     sample_rate bo = Some l) /\
  (forall r,
   exists bo,
     fst (__init__ now data_arg locs_arg sess (RateNumber r) meta_arg dc) = Ok bo /\
     sample_rate bo = Some [r]).
Proof.
  intros Hne k. unfold __init__.
  destruct l as [| r0 l]; [contradiction |].
  cbn [init_sample_rate init_n_secs rate_array rbind]. fold k.
  repeat split.
  - intros H. apply Nat.eqb_neq in H. rewrite H. reflexivity.
  - intros H. apply Nat.eqb_eq in H. rewrite H. cbn [rbind fst].
    eexists. split; reflexivity.
  - intros r. eexists. split; reflexivity.
Qed.

(** C8, for what the code does: a missing sample rate (None) gives an object
    with [sample_rate] and [n_secs] both None and one warning; an argument
    of an unrecognized format gives the warning that the number of seconds
    cannot be computed, and then line 130 tests the argument, not
    [self.sample_rate]: a numeric tuple has [n_secs] computed from it, and a
    string raises TypeError. *)
Theorem unrecognized_rate_n_secs (now : string) (data_arg : matrix)
    (locs_arg : list vec3) (sess : sessions_arg)
    (meta_arg : option (gmap string string)) (dc : option string) :
  (exists bo,
      __init__ now data_arg locs_arg sess RateNone meta_arg dc =
        (Ok bo, [no_rate_warning]) /\
      sample_rate bo = None /\ n_secs bo = None) /\
  (forall l,
    exists bo,
      __init__ now data_arg locs_arg sess (RateTuple l) meta_arg dc =
        (Ok bo, [bad_rate_warning]) /\
      sample_rate bo = None /\
      n_secs bo =
        Some (Rank1 (map (fun r => (float_of_nat (length data_arg) / r)%float) l))) /\
  (forall s,
      __init__ now data_arg locs_arg sess (RateStr s) meta_arg dc =
        (Raise TypeError, [bad_rate_warning])).
Proof.
  unfold __init__. repeat split.
  - eexists. cbn. repeat split.
  - intros l. eexists. cbn. repeat split.
Qed.

(** ** The theorems at concrete inputs *)

Lemma concrete_scenario_witness :
  inv3 identity3 = Ok identity3 /\
  exists n g,
    fst (to_nii inv3 "" None (Some "template.nii"%string) scenario_world) = Ok n /\
    img_shape n = [11; 11; 11; 1] /\
    get_fdata n = Ok g /\
    nd_shape g = (11, 11, 11, 1) /\
    getitem g (0, 0, 0, 0) = Ok 1.5%float /\
    getitem g (10, 10, 10, 0) = Ok 3%float /\
    forall a b c,
      0 <= a < 11 -> 0 <= b < 11 -> 0 <= c < 11 ->
      (a, b, c) <> (0, 0, 0) -> (a, b, c) <> (10, 10, 10) ->
      getitem g (a, b, c, 0) = Ok 0%float.
Proof.
  split; [reflexivity |].
  apply (concrete_scenario inv3 "" None (Some "template.nii"%string)
           scenario_world scenario_template); reflexivity.
Defined.

Lemma grid_shape_covers_electrodes_witness :
  to_nii inv3 "" None (Some "template.nii"%string) scenario_world =
    (Ok scenario_output, scenario_world) /\
  exists img l mx my mz tx ty tz,
    w_files scenario_world !! template_path "" (Some "template.nii"%string) = Some img /\
    mapped_locs inv3 "" (Some "template.nii"%string) scenario_world = Ok l /\
    firstn 3 (img_shape img) = [tx; ty; tz] /\
    axis_max px l mx /\ axis_max py l my /\ axis_max pz l mz /\
    let sx := Z.max tx (1 + mx) in
    let sy := Z.max ty (1 + my) in
    let sz := Z.max tz (1 + mz) in
    let st := Z.of_nat (length (data (w_self scenario_world))) in
    img_shape scenario_output = [sx; sy; sz; st] /\
    forall a b c,
      (a, b, c) ∈ l -> 0 <= a -> 0 <= b -> 0 <= c ->
      voxel_of (sx, sy, sz, st) (a, b, c) = Ok (a, b, c).
Proof.
  assert (H : to_nii inv3 "" None (Some "template.nii"%string) scenario_world =
              (Ok scenario_output, scenario_world))
    by (vm_compute; reflexivity).
  split; [exact H |].
  exact (grid_shape_covers_electrodes inv3 "" None (Some "template.nii"%string)
           scenario_world scenario_world scenario_output H).
Defined.

Lemma coordinate_mapping_truncates_witness :
  w_files scaled_world !! template_path "" (Some "scaled.nii"%string) =
    Some scaled_template /\
  img_affine scaled_template =
    ((2, 0, 0, 1), (0, 2, 0, 1), (0, 0, 2, 1), (0, 0, 0, 1))%float /\
  inv3 ((2, 0, 0), (0, 2, 0), (0, 0, 2))%float = Ok halves3 /\
  locs (w_self scaled_world) !! 0%nat = Some (6.5, -4.5, 1)%float /\
  ((6.5 - 1) * 0.5 + (-4.5 - 1) * 0 + (1 - 1) * 0 = 2.75)%float /\
  ((6.5 - 1) * 0 + (-4.5 - 1) * 0.5 + (1 - 1) * 0 = -2.75)%float /\
  exists l,
    mapped_locs inv3 "" (Some "scaled.nii"%string) scaled_world = Ok l /\
    l !! 0%nat =
      Some (float_to_int64 ((6.5 - 1) * 0.5 + (-4.5 - 1) * 0 + (1 - 1) * 0),
            float_to_int64 ((6.5 - 1) * 0 + (-4.5 - 1) * 0.5 + (1 - 1) * 0),
            float_to_int64 ((6.5 - 1) * 0 + (-4.5 - 1) * 0 + (1 - 1) * 0.5)) /\
    (forall f q,
        float_value f = Some q ->
        (inject_Z INT64_MIN <= q)%Q -> (q < inject_Z (2 ^ 63))%Q ->
        ((0 <= q)%Q -> float_to_int64 f = Qfloor q) /\
        ((q <= 0)%Q -> float_to_int64 f = Qceiling q)) /\
    (forall f q,
        float_value f = Some q ->
        (q < inject_Z INT64_MIN)%Q \/ (inject_Z (2 ^ 63) <= q)%Q ->
        float_to_int64 f = INT64_MIN) /\
    (forall f, float_value f = None -> float_to_int64 f = INT64_MIN) /\
    float_to_int64 2.75%float = 2 /\
    float_to_int64 (-2.75)%float = -2.
Proof.
  split; [reflexivity |]. split; [reflexivity |]. split; [reflexivity |].
  split; [reflexivity |]. split; [reflexivity |]. split; [reflexivity |].
  apply (coordinate_mapping_truncates inv3 "" (Some "scaled.nii"%string)
           scaled_world scaled_template
           2 0 0 0 2 0 0 0 2 1 1 1 (0, 0, 0, 1)%float
           0.5 0 0 0 0.5 0 0 0 0.5 0 6.5 (-4.5) 1);
    reflexivity.
Defined.

Lemma colliding_electrodes_are_averaged_witness :
  to_nii inv3 "" None (Some "template.nii"%string) scenario_world =
    (Ok scenario_output, scenario_world) /\
  exists g,
    get_fdata scenario_output = Ok g /\
    getitem g (0, 0, 0, 0) = Ok ((0 + 1 + 2) / (0 + 1 + 1))%float.
Proof.
  assert (H : to_nii inv3 "" None (Some "template.nii"%string) scenario_world =
              (Ok scenario_output, scenario_world))
    by (vm_compute; reflexivity).
  split; [exact H |].
  destruct (colliding_electrodes_are_averaged inv3 "" None
              (Some "template.nii"%string) scenario_world scenario_world
              scenario_output H) as (l & g & Hl & Hg & _ & Htwo).
  exists g. split; [exact Hg |].
  assert (E : get_fdata scenario_output = Ok scenario_grid) by reflexivity.
  rewrite E in Hg. injection Hg as <-.
  assert (El : mapped_locs inv3 "" (Some "template.nii"%string) scenario_world =
               Ok scenario_indices) by reflexivity.
  rewrite El in Hl. injection Hl as <-.
  destruct (Htwo (0, 0, 0) 0%nat 0%nat 1%nat 1%float 2%float) as (out & Hout & -> & _).
  - simpl. lia.
  - simpl. lia.
  - reflexivity.
  - reflexivity.
  - intros j Hj H0 H1. assert (j = 2%nat) as -> by (simpl in Hj; lia).
    vm_compute. discriminate.
  - reflexivity.
  - reflexivity.
  - exact Hout.
Defined.


Lemma kurtosis_mask_is_threshold_comparison_witness :
  length (kurtosis constant_brain) = n_elecs constant_brain /\
  length (thresh_bool constant_brain 10%float) = n_elecs constant_brain /\
  forall j k,
    kurtosis constant_brain !! j = Some k ->
    thresh_bool constant_brain 10%float !! j = Some (PrimFloat.ltb 10%float k) /\
    (PrimFloat.is_nan k = true -> thresh_bool constant_brain 10%float !! j = Some false).
Proof.
  split; [reflexivity |].
  apply (kurtosis_mask_is_threshold_comparison constant_brain 10%float).
  reflexivity.
Defined.

Lemma rate_list_must_match_sessions_witness :
  [1000%float] <> [] /\
  fst (__init__ "now" [[1]; [2]]%float [(0, 0, 0)%float]
         (SessArray [LInt 1; LInt 2]) (RateList [1000%float]) None None) =
    Raise AssertionError.
Proof.
  split; [discriminate |].
  apply (rate_list_must_match_sessions "now" [[1]; [2]]%float [(0, 0, 0)%float]
           (SessArray [LInt 1; LInt 2]) None None [1000%float]).
  - discriminate.
  - vm_compute. discriminate.
Defined.

(** C2, as stated, fails for an electrode mapped below the grid: with a
    5 x 5 x 5 template and the identity affine, the location (-6, 0, 0) maps
    to the index -6, which no axis of length 5 has, even counted from the
    end; no cell is addressed and [to_nii] raises IndexError. *)
Lemma electrode_below_grid_has_no_cell :
  mapped_locs inv3 "" (Some "template.nii"%string) low_world = Ok [(-6, 0, 0)] /\
  grid_shape [(-6, 0, 0)] (img_shape scenario_template) = Ok (5, 5, 5) /\
  voxel_of (5, 5, 5, 1) (-6, 0, 0) = Raise IndexError /\
  fst (to_nii inv3 "" None (Some "template.nii"%string) low_world) =
    Raise IndexError.
Proof. repeat split; vm_compute; reflexivity. Qed.

(** The electrode of [scaled_world] lands at the indices (2, -2, 0): both
    fractional parts are dropped toward zero. *)
Example scaled_electrode_index :
  mapped_locs inv3 "" (Some "scaled.nii"%string) scaled_world = Ok [(2, -2, 0)].
Proof. vm_compute. reflexivity. Qed.

(** C3, as stated, fails for a coordinate beyond the int64 range: with the
    identity affine the location 10^19 is mapped to the value 10^19, whose
    truncation toward zero is 10^19, an integer no int64 holds; the index
    the code computes is -2^63. *)
Lemma far_electrode_is_not_truncated :
  locs (w_self far_world) !! 0%nat = Some (10000000000000000000, 0, 0)%float /\
  inv3 (affine_linear (img_affine scenario_template)) = Ok identity3 /\
  float_value ((10000000000000000000 - 0) * 1 + (0 - 0) * 0 + (0 - 0) * 0)%float =
    Some (inject_Z (10 ^ 19)) /\
  Qfloor (inject_Z (10 ^ 19)) = 10 ^ 19 /\
  mapped_locs inv3 "" (Some "template.nii"%string) far_world =
    Ok [(- 2 ^ 63, 0, 0)] /\
  - 2 ^ 63 <> 10 ^ 19 /\
  forall i, INT64_MIN <= i <= INT64_MAX -> i <> 10 ^ 19.
Proof.
  split; [reflexivity |]. split; [reflexivity |].
  split; [vm_compute; reflexivity |].
  split; [apply Qfloor_Z |].
  split; [vm_compute; reflexivity |].
  split; [discriminate |].
  unfold INT64_MIN, INT64_MAX. intros i Hi. lia.
Qed.

(** C4, as stated, fails when the mean is NaN: two electrodes in the voxel
    (0, 0, 0) with values NaN and 1 have the mean NaN, and the returned cell
    holds zero. *)
Lemma nan_mean_is_stored_as_zero :
  mapped_locs inv3 "" (Some "template.nii"%string) nan_world =
    Ok [(0, 0, 0); (0, 0, 0)] /\
  matrix_get (data nan_brain) 0 0 = Ok nan /\
  matrix_get (data nan_brain) 0 1 = Ok 1%float /\
  PrimFloat.is_nan ((nan + 1) / 2)%float = true /\
  (try n <- fst (to_nii inv3 "" None (Some "template.nii"%string) nan_world);
   try g <- get_fdata n;
   getitem g (0, 0, 0, 0)) = Ok 0%float /\
  PrimFloat.eqb 0%float ((nan + 1) / 2)%float = false.
Proof. repeat split; vm_compute; reflexivity. Qed.

(** C6, as stated, fails for a channel of zero variance: its kurtosis is
    NaN, which is not finite, and the comparison with the threshold leaves
    it unmarked. *)
Lemma nan_kurtosis_is_not_excluded :
  ~ (forall (self : Brain) (threshold : float) (j : nat) (k : float),
        kurtosis self !! j = Some k ->
        (thresh_bool self threshold !! j = Some true <->
         (PrimFloat.ltb threshold k = true \/ PrimFloat.is_finite k = false))).
Proof.
  intros H.
  destruct (H constant_brain 10%float 0%nat nan eq_refl) as [_ H2].
  specialize (H2 (or_intror eq_refl)). vm_compute in H2. discriminate H2.
Qed.

(** C7, as stated, fails for a scalar sample rate: one rate with two
    distinct session labels is accepted. *)
Lemma one_rate_for_two_sessions_is_accepted :
  exists bo,
    fst (__init__ "now" [[1]; [2]]%float [(0, 0, 0)%float]
           (SessArray [LInt 1; LInt 2]) (RateNumber 1000%float) None None) = Ok bo /\
    sample_rate bo = Some [1000%float] /\
    n_sessions bo = 2%nat /\
    length [1000%float] <> n_sessions bo.
Proof. eexists. repeat split. vm_compute. discriminate. Qed.

(** C8 at failing inputs: a one-element tuple and a string. *)
Example tuple_rate_still_gives_n_secs :
  exists bo,
    __init__ "now" [[1]; [2]]%float [(0, 0, 0)%float] SessNone
      (RateTuple [2%float]) None None = (Ok bo, [bad_rate_warning]) /\
    sample_rate bo = None /\ n_secs bo = Some (Rank1 [1%float]).
Proof. eexists. repeat split. Qed.

Example string_rate_raises :
  __init__ "now" [[1]; [2]]%float [(0, 0, 0)%float] SessNone
    (RateStr "1000Hz") None None = (Raise TypeError, [bad_rate_warning]).
Proof. reflexivity. Qed.

(** * Further properties *)

(** ** Ways [to_nii] stops *)

Lemma for_each_ok_inv {A S} (P : S -> Prop) (body : A -> S -> result S)
    (xs : list A) (s s' : S) :
  (forall x s1 s2, P s1 -> body x s1 = Ok s2 -> P s2) ->
  P s -> for_each xs body s = Ok s' ->
  P s' /\ forall x, x ∈ xs -> exists s1 s2, P s1 /\ body x s1 = Ok s2.
Proof.
  intros Hstep. revert s. induction xs as [| x xs IH]; intros s Hs H; simpl in H.
  - injection H as <-. split; [exact Hs |]. intros x Hx. inversion Hx.
  - apply rbind_ok in H as (s1 & H1 & H).
    destruct (IH s1 (Hstep _ _ _ Hs H1) H) as [Hs' Hall].
    split; [exact Hs' |]. intros y Hy.
    apply elem_of_cons in Hy as [-> | Hy]; [eauto | auto].
Qed.

Lemma for_each_raise {A S} (body : A -> S -> result S) (xs : list A) (s : S)
    (e : exn) :
  for_each xs body s = Raise e ->
  exists x s1, x ∈ xs /\ body x s1 = Raise e.
Proof.
  revert s. induction xs as [| x xs IH]; intros s H; simpl in H; [discriminate |].
  destruct (body x s) as [s1 | e1] eqn:Hb; simpl in H.
  - destruct (IH _ H) as (y & s2 & Hy & Hr). exists y, s2. split; [right |]; assumption.
  - injection H as <-. exists x, s. split; [left | exact Hb].
Qed.

Lemma norm_index_raise (n k : Z) (e : exn) :
  norm_index n k = Raise e -> e = IndexError.
Proof.
  unfold norm_index. destruct (_ && _); [discriminate |].
  destruct (_ && _); [discriminate |]. intros [= <-]. reflexivity.
Qed.

Lemma flat_index_raise (s : shape4) (i : index4) (e : exn) :
  flat_index s i = Raise e -> e = IndexError.
Proof.
  destruct s as [[[sx sy] sz] st], i as [[[a b] c] d]. unfold flat_index.
  destruct (norm_index sx a) eqn:Ea; simpl; [| intros [= <-]; eapply norm_index_raise; eassumption].
  destruct (norm_index sy b) eqn:Eb; simpl; [| intros [= <-]; eapply norm_index_raise; eassumption].
  destruct (norm_index sz c) eqn:Ec; simpl; [| intros [= <-]; eapply norm_index_raise; eassumption].
  destruct (norm_index st d) eqn:Ed; simpl; [discriminate | intros [= <-]; eapply norm_index_raise; eassumption].
Qed.

Lemma iadd_raise (g : ndarray) (i : index4) (y : float) (e : exn) :
  iadd g i y = Raise e -> e = IndexError.
Proof.
  unfold iadd. destruct (flat_index _ _) as [o | e'] eqn:E; simpl.
  - destruct (nd_buf g !! o); [discriminate | intros [= <-]; reflexivity].
  - intros [= <-]. eapply flat_index_raise; eassumption.
Qed.

Lemma accumulate_one_raise (l : list ivec3) (Y : matrix) (i j : nat)
    (dc : ndarray * ndarray) (e : exn) :
  accumulate_one l Y i j dc = Raise e -> e = IndexError.
Proof.
  destruct dc as [d c]. unfold accumulate_one, locs_get, matrix_get.
  unfold ivec3 in *.
  destruct (l !! j) as [[[a b] c0] |]; simpl; [| intros [= <-]; reflexivity].
  destruct (Y !! i) as [row |]; simpl; [| intros [= <-]; reflexivity].
  destruct (row !! j) as [y |]; simpl; [| intros [= <-]; reflexivity].
  destruct (iadd d _ y) as [d1 | e1] eqn:E1; simpl;
    [| intros [= <-]; eapply iadd_raise; eassumption].
  destruct (iadd c _ _) as [c1 | e2] eqn:E2; simpl;
    [discriminate | intros [= <-]; eapply iadd_raise; eassumption].
Qed.

Lemma accumulate_raise (l : list ivec3) (Y : matrix) (T C : nat)
    (dc : ndarray * ndarray) (e : exn) :
  accumulate l Y T C dc = Raise e -> e = IndexError.
Proof.
  unfold accumulate. intros H.
  apply for_each_raise in H as (i & s1 & _ & H).
  apply for_each_raise in H as (j & s2 & _ & H).
  eapply accumulate_one_raise; eassumption.
Qed.

Lemma accumulate_ok_valid (s : shape4) (l : list ivec3) (Y : matrix) (T C : nat)
    (z1 z2 d c : ndarray) (i j : nat) :
  accumulate l Y T C (z1, z2) = Ok (d, c) ->
  nd_shape z1 = s -> nd_shape z2 = s ->
  (i < T)%nat -> (j < C)%nat ->
  exists p y o,
    l !! j = Some p /\ matrix_get Y i j = Ok y /\
    flat_index s (p, Z.of_nat i) = Ok o.
Proof.
  intros H H1 H2 Hi Hj. unfold accumulate in H.
  set (P := fun dc : ndarray * ndarray => nd_shape (fst dc) = s /\ nd_shape (snd dc) = s).
  assert (Hinner : forall i' js dc1 dc2, P dc1 ->
             for_each js (accumulate_one l Y i') dc1 = Ok dc2 ->
             P dc2 /\ forall j', j' ∈ js ->
               exists dc3 dc4, P dc3 /\ accumulate_one l Y i' j' dc3 = Ok dc4).
  { intros i' js dc1 dc2 HP Hf.
    apply (for_each_ok_inv P (accumulate_one l Y i') js dc1 dc2); [| exact HP | exact Hf].
    intros j' [d1 c1] [d2 c2] [Hd1 Hc1] Hb.
    destruct (accumulate_one_spec s l Y i' j' d1 c1 d2 c2 Hb Hd1 Hc1) as (? & ? & _).
    split; assumption. }
  destruct (for_each_ok_inv P _ (range T) (z1, z2) (d, c)
              (fun i' dc1 dc2 HP Hf => proj1 (Hinner i' (range C) dc1 dc2 HP Hf))
              (conj H1 H2) H) as [_ Hall].
  destruct (Hall i) as (dc1 & dc2 & HP1 & Hf); [apply elem_of_seq; lia |].
  cbv beta in Hf.
  destruct (Hinner i (range C) dc1 dc2 HP1 Hf) as [_ Hall'].
  destruct (Hall' j) as ([d3 c3] & [d4 c4] & [Hd3 _] & Hb); [apply elem_of_seq; lia |].
  unfold accumulate_one, locs_get in Hb. unfold ivec3 in *.
  destruct (l !! j) as [[[a b] c0] |]; simpl in Hb; [| discriminate].
  apply rbind_ok in Hb as (y & Hy & Hb).
  apply rbind_ok in Hb as (d5 & Hd5 & _).
  apply iadd_spec in Hd5 as (o & Ho & _). simpl in Hd3. rewrite Hd3 in Ho.
  exists (a, b, c0), y, o. auto.
Qed.

(** [to_nii] cannot take the column maxima of no electrodes: with an empty
    location matrix it raises ValueError, once the template has loaded and
    its linear block has been inverted, and writes nothing. *)
Theorem to_nii_without_electrodes (inv : mat3 -> result mat3) (pkg : string)
    (filepath template : option string) (w : World) (img : Nifti) (Sinv : mat3) :
  w_files w !! template_path pkg template = Some img ->
  inv (affine_linear (img_affine img)) = Ok Sinv ->
  locs (w_self w) = [] ->
  to_nii inv pkg filepath template w = (Raise ValueError, w).
Proof.
  intros Himg Hinv Hlocs. rewrite to_nii_unfold, Himg, Hinv, Hlocs. reflexivity.
Qed.

(** A template image with fewer than three axes makes [to_nii] raise
    ValueError, whatever the (at least one) electrodes and the samples
    are. *)
Theorem to_nii_flat_template (inv : mat3 -> result mat3) (pkg : string)
    (filepath template : option string) (w : World) (img : Nifti) (Sinv : mat3) :
  w_files w !! template_path pkg template = Some img ->
  inv (affine_linear (img_affine img)) = Ok Sinv ->
  locs (w_self w) <> [] ->
  (length (img_shape img) < 3)%nat ->
  to_nii inv pkg filepath template w = (Raise ValueError, w).
Proof.
  intros Himg Hinv Hlocs Hdim. rewrite to_nii_unfold, Himg, Hinv. cbn [rbind].
  unfold reconstruct, grid_shape.
  destruct (locs (w_self w)) as [| r R]; [contradiction |].
  cbn [map_locs map max_axis0 rbind].
  destruct (fold_left imax3 _ _) as [[mx my] mz].
  destruct (img_shape img) as [| tx [| ty [| tz ?]]]; simpl in Hdim; try lia;
    reflexivity.
Qed.

(** A call of [to_nii] that raises leaves the world as it was: no file is
    written before the exception.  A template path that names no file
    raises FileNotFoundError. *)
Theorem to_nii_failure_writes_nothing (inv : mat3 -> result mat3) (pkg : string)
    (filepath template : option string) (w : World) :
  (forall e, fst (to_nii inv pkg filepath template w) = Raise e ->
             snd (to_nii inv pkg filepath template w) = w) /\
  (w_files w !! template_path pkg template = None ->
   to_nii inv pkg filepath template w = (Raise FileNotFoundError, w)).
Proof.
  rewrite to_nii_unfold. split.
  - intros e. destruct (w_files w !! _) as [img |]; [| reflexivity].
    destruct (try Sinv <- inv _; reconstruct _ _ _ Sinv) as [n | e'];
      [discriminate | reflexivity].
  - intros ->. reflexivity.
Qed.

(** After a successful [to_nii] with a non-empty [filepath], the file at
    [filepath] holds the image that was returned and every other file is
    untouched; with no [filepath], or the empty string, no file changes. *)
Theorem to_nii_saves_returned_image (inv : mat3 -> result mat3) (pkg : string)
    (filepath template : option string) (w w' : World) (n : Nifti) :
  to_nii inv pkg filepath template w = (Ok n, w') ->
  match filepath with
  | Some path =>
      if String.eqb path "" then w' = w
      else w_files w' !! path = Some n /\
           forall q, q <> path -> w_files w' !! q = w_files w !! q
  | None => w' = w
  end.
Proof.
  intros H.
  apply to_nii_ok in H
    as (img & l & sx & sy & sz & z & d & c & _ & _ & _ & _ & _ & _ & _ & ->).
  unfold saved. destruct filepath as [path |]; [| reflexivity].
  destruct (String.eqb path ""); [reflexivity |]. cbn [w_files]. split.
  - apply lookup_insert_eq.
  - intros q Hq. apply lookup_insert_ne. congruence.
Qed.

(** The image [to_nii] wrote can serve as the template of a further call on
    the same object: that call returns the very same image. *)
Theorem to_nii_output_as_template (inv : mat3 -> result mat3) (pkg : string)
    (path : string) (template filepath' : option string) (w w' : World)
    (n : Nifti) :
  path <> ""%string ->
  to_nii inv pkg (Some path) template w = (Ok n, w') ->
  fst (to_nii inv pkg filepath' (Some path) w') = Ok n.
Proof.
  intros Hpath H. rewrite to_nii_unfold in H.
  destruct (w_files w !! _) as [img |]; [| discriminate].
  destruct (inv (affine_linear (img_affine img))) as [Sinv | e] eqn:Hinv;
    cbn [rbind] in H; [| discriminate].
  destruct (reconstruct _ _ img Sinv) as [n' | e] eqn:Hr; [| discriminate].
  injection H as <- <-.
  destruct (reconstruct_idem _ _ _ _ _ Hr) as [Haff Hidem].
  rewrite to_nii_unfold. cbn [template_path].
  apply String.eqb_neq in Hpath. rewrite Hpath.
  cbn [w_files w_self]. rewrite lookup_insert_eq, Haff, Hinv. cbn [rbind].
  rewrite Hidem. reflexivity.
Qed.

Lemma voxel_of_spec (s : shape4) (p cell : ivec3) :
  voxel_of s p = Ok cell ->
  let '(sx, sy, sz, _) := s in
  (0 <= px cell < sx /\ (px cell = px p \/ (px p < 0 /\ px cell = px p + sx))) /\
  (0 <= py cell < sy /\ (py cell = py p \/ (py p < 0 /\ py cell = py p + sy))) /\
  (0 <= pz cell < sz /\ (pz cell = pz p \/ (pz p < 0 /\ pz cell = pz p + sz))).
Proof.
  destruct s as [[[sx sy] sz] st], p as [[a b] c]. unfold voxel_of. intros H.
  apply rbind_ok in H as (a' & Ha & H).
  apply rbind_ok in H as (b' & Hb & H).
  apply rbind_ok in H as (c' & Hc & H).
  injection H as <-. unfold px, py, pz. simpl.
  apply norm_index_ok in Ha, Hb, Hc. lia.
Qed.

(** In a run of [to_nii] that returns, over at least one time sample, every
    electrode falls in one cell of the grid, and its value at each time
    sample is among the values averaged in that cell; an index that is
    negative on some axis is counted from the end of that axis, so the
    electrode lands in the cell at index plus axis length. *)
Theorem electrode_lands_in_one_cell (inv : mat3 -> result mat3) (pkg : string)
    (filepath template : option string) (w w' : World) (n : Nifti)
    (j : nat) (r : vec3) :
  to_nii inv pkg filepath template w = (Ok n, w') ->
  data (w_self w) <> [] ->
  locs (w_self w) !! j = Some r ->
  exists l g p cell,
    mapped_locs inv pkg template w = Ok l /\
    get_fdata n = Ok g /\
    l !! j = Some p /\
    voxel_of (nd_shape g) p = Ok cell /\
    let '(sx, sy, sz, st) := nd_shape g in
    (px cell = px p \/ (px p < 0 /\ px cell = px p + sx)) /\
    (py cell = py p \/ (py p < 0 /\ py cell = py p + sy)) /\
    (pz cell = pz p \/ (pz p < 0 /\ pz cell = pz p + sz)) /\
    forall t v,
      matrix_get (data (w_self w)) t j = Ok v ->
      v ∈ cell_values (nd_shape g) l (data (w_self w)) t cell
            (length (locs (w_self w))).
Proof.
  intros H Hdata Hr.
  apply to_nii_ok in H
    as (img & l & sx & sy & sz & z & d & c & Himg & Hl & Hlen & Hs & Hz & Hacc & -> & _).
  cbv zeta in Hz, Hacc.
  set (Y := data (w_self w)) in *. set (s := (sx, sy, sz, Z.of_nat (length Y))) in *.
  assert (Hj : (j < length (locs (w_self w)))%nat) by (eapply lookup_lt_Some; eassumption).
  assert (HT : (0 < length Y)%nat) by (destruct Y; [contradiction | simpl; lia]).
  assert (Hzs : nd_shape z = s) by (rewrite (np_zeros_spec _ _ Hz); reflexivity).
  destruct (accumulate_ok_valid s l Y _ _ z z d c 0 j Hacc Hzs Hzs HT Hj)
    as (p & y & o & Hp & _ & Ho).
  destruct p as [[a b] c0]. rewrite flat_index_split in Ho.
  destruct (voxel_of s (a, b, c0)) as [cell | e] eqn:Hv; [| discriminate].
  assert (Hshape : nd_shape (mask_nan (np_divide d c)) = s).
  { cbn [nd_shape mask_nan np_divide].
    exact (proj1 (accumulate_shape _ _ _ _ _ _ _ _ _ Hacc Hzs Hzs)). }
  exists l, (mask_nan (np_divide d c)), (a, b, c0), cell.
  split; [exact Hl |]. split; [apply Nifti1Image_fdata |]. split; [exact Hp |].
  rewrite Hshape. split; [exact Hv |].
  pose proof (voxel_of_spec s _ _ Hv) as Hspec. unfold s in Hspec |- *.
  destruct Hspec as ((_ & Hx) & (_ & Hy) & (_ & Hzz)).
  repeat (split; [assumption |]).
  intros t v Hv'. unfold cell_values. apply list_elem_of_omap.
  exists j. split; [apply elem_of_seq; lia |].
  rewrite bool_decide_eq_true_2.
  - fold Y. rewrite Hv'. reflexivity.
  - unfold electrode_cell. unfold ivec3 in *. rewrite Hp.
    fold s. rewrite Hv. reflexivity.
Qed.

(** With at least one time sample, an electrode whose index on some axis
    lies outside [-n, n) for the axis length [n] makes [to_nii] raise
    IndexError, and nothing is written. *)
Theorem to_nii_index_error (inv : mat3 -> result mat3) (pkg : string)
    (filepath template : option string) (w : World) (img : Nifti)
    (l : list ivec3) (sx sy sz : Z) (z : ndarray) (j : nat) (p : ivec3) (e : exn) :
  w_files w !! template_path pkg template = Some img ->
  mapped_locs inv pkg template w = Ok l ->
  grid_shape l (img_shape img) = Ok (sx, sy, sz) ->
  np_zeros (sx, sy, sz, Z.of_nat (length (data (w_self w)))) = Ok z ->
  data (w_self w) <> [] ->
  l !! j = Some p ->
  voxel_of (sx, sy, sz, Z.of_nat (length (data (w_self w)))) p = Raise e ->
  to_nii inv pkg filepath template w = (Raise IndexError, w).
Proof.
  intros Himg Hl Hs Hz HY Hp Hv.
  set (Y := data (w_self w)) in *.
  set (s := (sx, sy, sz, Z.of_nat (length Y))) in *.
  rewrite to_nii_unfold, Himg. unfold mapped_locs in Hl. rewrite Himg in Hl.
  destruct (inv _) as [Sinv | e']; cbn [rbind] in *; [| discriminate].
  injection Hl as <-. unfold reconstruct. fold Y. rewrite Hs. cbn [rbind].
  fold s. rewrite Hz. cbn [rbind].
  assert (Hzs : nd_shape z = s) by (rewrite (np_zeros_spec _ _ Hz); reflexivity).
  rewrite Hzs, Hz. cbn [rbind].
  destruct (accumulate _ Y _ _ (z, z)) as [[d c] | e'] eqn:Hacc; cbn [rbind].
  - exfalso.
    assert (Hj : (j < length (locs (w_self w)))%nat).
    { apply lookup_lt_Some in Hp. rewrite map_locs_length in Hp. exact Hp. }
    assert (HT : (0 < length Y)%nat) by (destruct Y; [contradiction | simpl; lia]).
    destruct (accumulate_ok_valid s _ Y _ _ z z d c 0 j Hacc Hzs Hzs HT Hj)
      as (p' & y & o & Hp' & _ & Ho).
    pose proof (eq_trans (eq_sym Hp) Hp') as E. injection E as <-.
    destruct p as [[a b] c0]. rewrite flat_index_split, Hv in Ho. discriminate.
  - apply accumulate_raise in Hacc. subst e'. reflexivity.
Qed.

(** With no time samples the loops do not run: whatever indices the
    electrodes map to, [to_nii] returns a grid with the computed spatial
    shape, zero time slices and an empty buffer. *)
Theorem to_nii_without_samples (inv : mat3 -> result mat3) (pkg : string)
    (filepath template : option string) (w : World) (img : Nifti)
    (l : list ivec3) (sx sy sz : Z) :
  w_files w !! template_path pkg template = Some img ->
  mapped_locs inv pkg template w = Ok l ->
  grid_shape l (img_shape img) = Ok (sx, sy, sz) ->
  0 <= sx -> 0 <= sy -> 0 <= sz ->
  data (w_self w) = [] ->
  fst (to_nii inv pkg filepath template w) =
  Ok {| img_shape := [sx; sy; sz; 0]; img_affine := img_affine img; img_buf := [] |}.
Proof.
  intros Himg Hl Hs Hx Hy Hz Hdata.
  assert (Hz0 : np_zeros (sx, sy, sz, Z.of_nat (length (data (w_self w)))) =
                Ok {| nd_shape := (sx, sy, sz, 0); nd_buf := [] |}).
  { rewrite Hdata. unfold np_zeros.
    destruct (Z.ltb_spec sx 0), (Z.ltb_spec sy 0), (Z.ltb_spec sz 0); try lia.
    simpl. rewrite Z.mul_0_r. reflexivity. }
  pose (e := {| nd_shape := (sx, sy, sz, 0); nd_buf := [] |}).
  rewrite (to_nii_run inv pkg filepath template w img l sx sy sz e e e Himg Hl Hs Hz0).
  - reflexivity.
  - rewrite Hdata. reflexivity.
Qed.

Lemma cell_values_row (s1 s2 : shape4) (l : list ivec3) (Y1 Y2 : matrix)
    (t : nat) (cell : ivec3) (C : nat) :
  fst s1 = fst s2 ->
  Y1 !! t = Y2 !! t ->
  cell_values s1 l Y1 t cell C = cell_values s2 l Y2 t cell C.
Proof.
  intros Hs HY. unfold cell_values. apply omap_ext_in. intros j _.
  assert (He : electrode_cell s1 l j = electrode_cell s2 l j).
  { unfold electrode_cell. destruct (l !! j) as [p |]; [| reflexivity].
    destruct s1 as [[[x1 y1] z1] t1], s2 as [[[x2 y2] z2] t2].
    simpl in Hs. injection Hs as -> -> ->. reflexivity. }
  rewrite He. unfold matrix_get. rewrite HY. reflexivity.
Qed.

(** The slice of the output at time sample [t] depends on the recording
    only through row [t] of the data: two objects with the same electrode
    locations and the same row [t], run against the same template, give the
    same value in every cell of that slice, whatever their other samples and
    however many samples each has. *)
Theorem time_samples_are_independent (inv : mat3 -> result mat3) (pkg : string)
    (f1 f2 template : option string) (w1 w2 w1' w2' : World) (n1 n2 : Nifti)
    (g1 g2 : ndarray) (t : nat) (cell : ivec3) :
  w_files w1 !! template_path pkg template =
    w_files w2 !! template_path pkg template ->
  locs (w_self w1) = locs (w_self w2) ->
  data (w_self w1) !! t = data (w_self w2) !! t ->
  to_nii inv pkg f1 template w1 = (Ok n1, w1') ->
  to_nii inv pkg f2 template w2 = (Ok n2, w2') ->
  get_fdata n1 = Ok g1 ->
  get_fdata n2 = Ok g2 ->
  in_grid (nd_shape g1) (cell, Z.of_nat t) ->
  exists v, getitem g1 (cell, Z.of_nat t) = Ok v /\
            getitem g2 (cell, Z.of_nat t) = Ok v.
Proof.
  intros Hf HR HY H1 H2 Hg1 Hg2 Hin.
  apply to_nii_ok in H1
    as (img1 & l1 & sx & sy & sz & z1 & d1 & c1 & Hi1 & Hl1 & _ & Hs1 & Hz1 & Ha1 & -> & _).
  apply to_nii_ok in H2
    as (img2 & l2 & sx2 & sy2 & sz2 & z2 & d2 & c2 & Hi2 & Hl2 & _ & Hs2 & Hz2 & Ha2 & -> & _).
  cbv zeta in Hz1, Ha1, Hz2, Ha2.
  rewrite Hf, Hi2 in Hi1. injection Hi1 as <-.
  assert (l1 = l2) as <-.
  { unfold mapped_locs in Hl1, Hl2. rewrite Hf, Hi2 in Hl1. rewrite Hi2, <- HR in Hl2.
    congruence. }
  rewrite Hs1 in Hs2. injection Hs2 as <- <- <-.
  rewrite Nifti1Image_fdata in Hg1, Hg2.
  injection Hg1 as <-. injection Hg2 as <-.
  set (s1 := (sx, sy, sz, Z.of_nat (length (data (w_self w1))))) in *.
  set (s2 := (sx, sy, sz, Z.of_nat (length (data (w_self w2))))) in *.
  assert (Hsh1 : nd_shape (mask_nan (np_divide d1 c1)) = s1).
  { cbn [nd_shape mask_nan np_divide].
    refine (proj1 (accumulate_shape _ _ _ _ _ _ _ _ _ Ha1 _ _));
      rewrite (np_zeros_spec _ _ Hz1); reflexivity. }
  rewrite Hsh1 in Hin.
  assert (Ht1 : (t < length (data (w_self w1)))%nat).
  { destruct cell as [[a b] c]. unfold s1 in Hin. simpl in Hin. lia. }
  assert (Ht2 : (t < length (data (w_self w2)))%nat).
  { destruct (lookup_lt_is_Some_2 _ _ Ht1) as [row Hrow].
    apply (lookup_lt_Some _ _ row). exact (eq_trans (eq_sym HY) Hrow). }
  assert (Hin2 : in_grid s2 (cell, Z.of_nat t)).
  { destruct cell as [[a b] c]. unfold s1 in Hin. unfold s2. simpl in *. lia. }
  destruct (output_cell _ _ _ _ _ _ _ _ _ _ _ t Hz1 Ha1 Hin) as (_ & _ & Ho1).
  destruct (output_cell _ _ _ _ _ _ _ _ _ _ _ t Hz2 Ha2 Hin2) as (_ & _ & Ho2).
  fold s1 in Ho1. fold s2 in Ho2.
  rewrite <- HR in Ho2.
  rewrite (cell_values_row s2 s1 _ _ (data (w_self w1))) in Ho2;
    [| reflexivity | symmetry; exact HY].
  eexists. split; eassumption.
Qed.

(** ** Saving and loading *)

Lemma split_dot_nonempty (s : string) : split_dot s <> [].
Proof.
  induction s as [| c s IH]; simpl; [discriminate |].
  destruct (Ascii.eqb c "."%char); [discriminate |].
  destruct (split_dot s); discriminate.
Qed.

Lemma split_dot_cons (a b : string) :
  split_dot (a ++ String "." b)%string = split_dot a ++ split_dot b.
Proof.
  induction a as [| c a IH]; [reflexivity |].
  change (String c a ++ String "." b)%string with (String c (a ++ String "." b)%string).
  cbn [split_dot]. rewrite IH.
  destruct (Ascii.eqb c "."); [reflexivity |].
  pose proof (split_dot_nonempty a) as Hne.
  destruct (split_dot a) as [| x xs]; [contradiction | reflexivity].
Qed.

Lemma split_dot_app (a b : string) :
  split_dot (a ++ "." ++ b)%string = split_dot a ++ split_dot b.
Proof. apply split_dot_cons. Qed.

Lemma split_dot_dotless (s : string) :
  dotless s = true -> split_dot s = [s].
Proof.
  induction s as [| c s IH]; [reflexivity |].
  cbn [dotless split_dot]. intros H. apply andb_true_iff in H as [Hc Hs].
  apply negb_true_iff in Hc. rewrite Hc, (IH Hs). reflexivity.
Qed.

Lemma last_split_dot_ext (stem ext : string) :
  dotless ext = true ->
  last (split_dot (stem ++ "." ++ ext)%string) = Some ext.
Proof.
  intros H. rewrite split_dot_app, (split_dot_dotless _ H).
  apply last_snoc.
Qed.

Lemma substring_all (m : nat) (s : string) :
  (String.length s <= m)%nat -> String.substring 0 m s = s.
Proof.
  revert m. induction s as [| c s IH]; intros m H.
  - destruct m; reflexivity.
  - destruct m as [| m]; [simpl in H; lia |].
    simpl. rewrite IH; [reflexivity | simpl in H; lia].
Qed.

Lemma substring_suffix (n m : nat) (s : string) :
  (String.length s <= n + m)%nat ->
  exists pre, s = (pre ++ String.substring n m s)%string.
Proof.
  revert s. induction n as [| n IH]; intros s H.
  - exists EmptyString. rewrite substring_all by exact H. reflexivity.
  - destruct s as [| c s].
    + exists EmptyString. reflexivity.
    + destruct (IH s) as [pre Hpre]; [simpl in H; lia |].
      exists (String c pre).
      change (String c s = String c (pre ++ String.substring n m s)%string).
      rewrite <- Hpre. reflexivity.
Qed.

Lemma last3_bo (s : string) :
  last3 s = ".bo"%string -> exists stem, s = (stem ++ ".bo")%string.
Proof.
  unfold last3. intros H.
  destruct (substring_suffix (String.length s - 3) 3 s) as [pre Hpre]; [lia |].
  exists pre. rewrite H in Hpre. exact Hpre.
Qed.

Lemma string_length_app (a b : string) :
  String.length (a ++ b)%string = (String.length a + String.length b)%nat.
Proof.
  induction a as [| x a IH]; [reflexivity |].
  change (S (String.length (a ++ b)%string) = S (String.length a + String.length b)).
  rewrite IH. reflexivity.
Qed.

Lemma substring_skip (a b : string) (m : nat) :
  String.substring (String.length a) m (a ++ b)%string = String.substring 0 m b.
Proof. induction a as [| x a IH]; [reflexivity |]. exact IH. Qed.

Lemma last3_app_bo (s : string) : last3 (s ++ ".bo")%string = ".bo"%string.
Proof.
  unfold last3. rewrite string_length_app. simpl String.length.
  replace (String.length s + 3 - 3)%nat with (String.length s) by lia.
  rewrite substring_skip. reflexivity.
Qed.

Lemma save_name_stem (fname : string) :
  exists stem, save_name fname = (stem ++ "." ++ "bo")%string.
Proof.
  unfold save_name. destruct (String.eqb (last3 fname) ".bo") eqn:H.
  - apply String.eqb_eq in H. apply last3_bo in H as [stem ->]. exists stem. reflexivity.
  - exists fname. reflexivity.
Qed.

Lemma save_unfold (self : Brain) (fname compression : string) (fs : gmap string bo_dict) :
  save self fname compression fs = <[save_name fname := save_dict self]> fs.
Proof.
  unfold save, save_name, save_dict, dd_io_save.
  destruct (String.eqb (last3 fname) ".bo"); reflexivity.
Qed.

Lemma remove_dups_head {A} `{EqDecision A} (x : A) (l : list A) :
  x ∈ l -> remove_dups (x :: l) = remove_dups l.
Proof.
  intros Hl. cbn [remove_dups].
  destruct (decide_rel elem_of x l); [reflexivity | contradiction].
Qed.

Lemma n_unique_repeat (lb : label) (T : nat) :
  (0 < T)%nat -> n_unique (repeat lb T) = 1%nat.
Proof.
  unfold n_unique. induction T as [| T IH]; [lia |]. intros _.
  destruct T as [| T]; [reflexivity |].
  change (repeat lb (S (S T))) with (lb :: repeat lb (S T)).
  rewrite remove_dups_head by (simpl; left).
  apply IH. lia.
Qed.

(** [save] writes exactly one file, under a name that ends in [.bo]: the
    name given if it ends in [.bo] already, the name with [.bo] appended
    otherwise.  That file holds the six saved attributes of the object;
    every other file is as it was. *)
Theorem save_writes_one_bo_file (self : Brain) (fname compression : string)
    (fs : gmap string bo_dict) :
  let fs' := save self fname compression fs in
  last3 (save_name fname) = ".bo"%string /\
  (save_name fname = fname \/ save_name fname = (fname ++ ".bo")%string) /\
  fs' !! save_name fname = Some (save_dict self) /\
  forall q, q <> save_name fname -> fs' !! q = fs !! q.
Proof.
  cbv zeta. rewrite save_unfold. repeat split.
  - unfold save_name. destruct (String.eqb (last3 fname) ".bo") eqn:H.
    + apply String.eqb_eq. exact H.
    + apply last3_app_bo.
  - unfold save_name. destruct (String.eqb (last3 fname) ".bo"); auto.
  - apply lookup_insert_eq.
  - intros q Hq. apply lookup_insert_ne. auto.
Qed.

(** For a name that does not end in [.bo], the name and the name with
    [.bo] appended are one file to [save]: saving under the second replaces
    what was saved under the first. *)
Theorem save_extension_is_optional (b1 b2 : Brain) (fname c1 c2 : string)
    (fs : gmap string bo_dict) :
  last3 fname <> ".bo"%string ->
  save b2 (fname ++ ".bo") c2 (save b1 fname c1 fs) = save b2 fname c2 fs.
Proof.
  intros H. rewrite !save_unfold.
  assert (Hn : save_name (fname ++ ".bo") = save_name fname).
  { unfold save_name. rewrite last3_app_bo.
    apply String.eqb_neq in H. rewrite H. reflexivity. }
  rewrite Hn. apply insert_insert_eq.
Qed.

(** The only [ValueError] [_load_from_path] raises for a string is the
    filetype one: splitting always leaves a last piece, so the request for a
    file extension is unreachable. *)
Theorem only_value_error_is_unrecognized_filetype {D B Mo N E : Type}
    (dd_io_load : string -> E + D) (Brain_kw : D -> E + B)
    (Model_kw : D -> E + Mo) (Nifti_path : string -> E + N)
    (fpath msg : string) :
  _load_from_path dd_io_load Brain_kw Model_kw Nifti_path fpath = LoadValueError msg ->
  msg = "Filetype not recognized. Must be .bo, .mo or .nii."%string.
Proof.
  unfold _load_from_path.
  destruct (last (split_dot fpath)) as [ext |] eqn:Hl.
  - destruct (String.eqb ext "bo").
    { destruct (dd_io_load fpath) as [e | d]; [discriminate |].
      destruct (Brain_kw d); discriminate. }
    destruct (String.eqb ext "mo").
    { destruct (dd_io_load fpath) as [e | d]; [discriminate |].
      destruct (Model_kw d); discriminate. }
    destruct (String.eqb ext "nii").
    { destruct (Nifti_path fpath); discriminate. }
    intros [= <-]. reflexivity.
  - apply last_None in Hl. destruct (split_dot_nonempty _ Hl).
Qed.

(** The loader is chosen by the text after the last dot alone: whatever
    comes before it, dots included, a path ending in [.bo] goes to the Brain
    loader, one ending in [.mo] to the Model loader and one ending in [.nii]
    to the Nifti loader, each with the whole path. *)
Theorem recognized_extension_selects_loader {D B Mo N E : Type}
    (dd_io_load : string -> E + D) (Brain_kw : D -> E + B)
    (Model_kw : D -> E + Mo) (Nifti_path : string -> E + N)
    (stem : string) :
  _load_from_path dd_io_load Brain_kw Model_kw Nifti_path (stem ++ ".bo") =
    match dd_io_load (stem ++ ".bo")%string with
    | inl e => LoaderRaised e
    | inr d => match Brain_kw d with
               | inl e => LoaderRaised e
               | inr b => Loaded (LoadedBrain b)
               end
    end /\
  _load_from_path dd_io_load Brain_kw Model_kw Nifti_path (stem ++ ".mo") =
    match dd_io_load (stem ++ ".mo")%string with
    | inl e => LoaderRaised e
    | inr d => match Model_kw d with
               | inl e => LoaderRaised e
               | inr m => Loaded (LoadedModel m)
               end
    end /\
  _load_from_path dd_io_load Brain_kw Model_kw Nifti_path (stem ++ ".nii") =
    match Nifti_path (stem ++ ".nii")%string with
    | inl e => LoaderRaised e
    | inr n => Loaded (LoadedNifti n)
    end.
Proof.
  unfold _load_from_path.
  rewrite (last_split_dot_ext stem "bo" eq_refl
             : last (split_dot (stem ++ ".bo")) = Some "bo"%string).
  rewrite (last_split_dot_ext stem "mo" eq_refl
             : last (split_dot (stem ++ ".mo")) = Some "mo"%string).
  rewrite (last_split_dot_ext stem "nii" eq_refl
             : last (split_dot (stem ++ ".nii")) = Some "nii"%string).
  repeat split.
Qed.

(** A path whose text after the last dot is none of [bo], [mo] and [nii] is
    refused with the filetype message, and no loader is consulted: the
    comparison is exact, so [.BO] or a trailing dot are refused too. *)
Theorem unrecognized_extension_is_rejected {D B Mo N E : Type}
    (dd_io_load : string -> E + D) (Brain_kw : D -> E + B)
    (Model_kw : D -> E + Mo) (Nifti_path : string -> E + N)
    (stem ext : string) :
  dotless ext = true ->
  ext <> "bo"%string -> ext <> "mo"%string -> ext <> "nii"%string ->
  _load_from_path dd_io_load Brain_kw Model_kw Nifti_path (stem ++ "." ++ ext) =
  LoadValueError "Filetype not recognized. Must be .bo, .mo or .nii.".
Proof.
  intros Hd Hbo Hmo Hnii. unfold _load_from_path.
  rewrite (last_split_dot_ext stem ext Hd).
  apply String.eqb_neq in Hbo, Hmo, Hnii. rewrite Hbo, Hmo, Hnii. reflexivity.
Qed.

(** A path with no dot at all is taken whole as its own extension: it is
    refused with the filetype message, unless it is exactly [bo], [mo] or
    [nii]. *)
Theorem path_without_dot_is_its_own_extension {D B Mo N E : Type}
    (dd_io_load : string -> E + D) (Brain_kw : D -> E + B)
    (Model_kw : D -> E + Mo) (Nifti_path : string -> E + N)
    (fpath : string) :
  dotless fpath = true ->
  fpath <> "bo"%string -> fpath <> "mo"%string -> fpath <> "nii"%string ->
  _load_from_path dd_io_load Brain_kw Model_kw Nifti_path fpath =
  LoadValueError "Filetype not recognized. Must be .bo, .mo or .nii.".
Proof.
  intros Hd Hbo Hmo Hnii. unfold _load_from_path.
  rewrite (split_dot_dotless _ Hd). cbn [last].
  apply String.eqb_neq in Hbo, Hmo, Hnii. rewrite Hbo, Hmo, Hnii. reflexivity.
Qed.


(** What [save] wrote is what [_load_from_path] hands to the Brain
    constructor: for every name given to [save], loading the name [save]
    wrote under takes the Brain branch and calls the constructor with the
    six saved attributes of the object. *)
Theorem load_after_save_calls_brain {B Mo N E : Type} (missing : string -> E)
    (Brain_kw : bo_dict -> E + B) (Model_kw : bo_dict -> E + Mo)
    (Nifti_path : string -> E + N)
    (self : Brain) (fname compression : string) (fs : gmap string bo_dict) :
  _load_from_path (read_bo missing (save self fname compression fs))
    Brain_kw Model_kw Nifti_path (save_name fname) =
  match Brain_kw (save_dict self) with
  | inl e => LoaderRaised e
  | inr b => Loaded (LoadedBrain b)
  end.
Proof.
  assert (Hl : last (split_dot (save_name fname)) = Some "bo"%string).
  { destruct (save_name_stem fname) as [stem ->].
    apply (last_split_dot_ext stem "bo" eq_refl). }
  unfold _load_from_path. rewrite Hl.
  change (String.eqb "bo" "bo") with true. cbv iota.
  unfold read_bo. rewrite save_unfold, lookup_insert_eq. reflexivity.
Qed.

Lemma init_date_nonempty (now : string) (date : option string) :
  now <> ""%string ->
  match date with
  | None => now
  | Some d => if String.eqb d "" then now else d
  end <> ""%string.
Proof.
  intros Hnow. destruct date as [d |]; [| exact Hnow].
  destruct (String.eqb d "") eqn:Hd; [exact Hnow |].
  apply String.eqb_neq. exact Hd.
Qed.

(** A Brain built from a rate list, or with no rate, is rebuilt exactly by
    the constructor from the attributes [save] writes, with the same
    warnings, at whatever time the rebuilding happens. *)
Theorem saved_attributes_rebuild_the_brain (now now' : string) (data_arg : matrix)
    (locs_arg : list vec3) (sess : sessions_arg) (rate : rate_arg)
    (meta_arg : option (gmap string string)) (date : option string)
    (b : Brain) (ws : list string) :
  now <> ""%string ->
  match rate with RateNone | RateList _ => True | _ => False end ->
  __init__ now data_arg locs_arg sess rate meta_arg date = (Ok b, ws) ->
  Brain_from_dict now' (save_dict b) = (Ok b, ws).
Proof.
  intros Hnow Hrate H.
  pose proof (init_date_nonempty now date Hnow) as Hdate.
  apply String.eqb_neq in Hdate.
  unfold __init__ in H.
  destruct rate as [| l | | | |]; try contradiction.
  - cbn in H. injection H as <- <-.
    unfold Brain_from_dict, save_dict, __init__. cbn. rewrite Hdate. reflexivity.
  - destruct l as [| r l]; [discriminate |].
    cbn [init_sample_rate] in H.
    destruct (Nat.eqb _ _) eqn:Hlen; [| discriminate].
    cbn in H. injection H as <- <-.
    unfold Brain_from_dict, save_dict, __init__.
    cbn [bo_data bo_locs bo_sessions bo_sample_rate bo_meta bo_date_created
         data locs sessions sample_rate meta date_created init_sessions
         init_sample_rate].
    rewrite Hlen. cbn. rewrite Hdate. reflexivity.
Qed.

(** A single number is accepted as the sample rate whatever the number of
    sessions; it is stored as a one-element list, and the number of seconds
    is one number.  Rebuilding the Brain from the attributes [save] writes
    goes through the list branch: with one session it gives the same Brain
    except that the number of seconds is now a one-element array, and with
    any other number of sessions it raises AssertionError. *)
Theorem scalar_rate_brain_rebuilds_only_with_one_session (now now' : string)
    (data_arg : matrix) (locs_arg : list vec3) (sess : sessions_arg) (r : float)
    (meta_arg : option (gmap string string)) (date : option string) :
  now <> ""%string ->
  exists b,
    __init__ now data_arg locs_arg sess (RateNumber r) meta_arg date = (Ok b, []) /\
    sample_rate b = Some [r] /\
    n_secs b = Some (Rank0 (float_of_nat (length data_arg) / r)%float) /\
    (n_sessions b = 1%nat ->
     Brain_from_dict now' (save_dict b) =
       (Ok {| data := data b; locs := locs b; sessions := sessions b;
              sample_rate := sample_rate b;
              n_secs := Some (Rank1 [(float_of_nat (length data_arg) / r)%float]);
              meta := meta b; date_created := date_created b;
              n_elecs := n_elecs b; n_sessions := n_sessions b;
              kurtosis := kurtosis b |}, [])) /\
    (n_sessions b <> 1%nat ->
     Brain_from_dict now' (save_dict b) = (Raise AssertionError, [])).
Proof.
  intros Hnow.
  pose proof (init_date_nonempty now date Hnow) as Hdate.
  apply String.eqb_neq in Hdate.
  eexists. split; [reflexivity |]. split; [reflexivity |]. split; [reflexivity |].
  cbn [n_sessions].
  unfold Brain_from_dict, save_dict, __init__.
  cbn [bo_data bo_locs bo_sessions bo_sample_rate bo_meta bo_date_created
       data locs sessions sample_rate meta date_created init_sessions
       init_sample_rate length].
  split; intros Hn.
  - rewrite Hn. cbn. rewrite Hdate. reflexivity.
  - destruct (Nat.eqb_spec 1 (n_unique (init_sessions sess (length data_arg))))
      as [Heq | _]; [congruence | reflexivity].
Qed.

(** A rate given as a tuple or an array is not kept, yet the number of
    seconds is computed from it; the attributes [save] writes hold no rate,
    so the rebuilt Brain differs from the saved one in having no number of
    seconds, and in nothing else. *)
Theorem tuple_rate_brain_loses_n_secs (now now' : string)
    (data_arg : matrix) (locs_arg : list vec3) (sess : sessions_arg)
    (l : list float) (meta_arg : option (gmap string string))
    (date : option string) :
  now <> ""%string ->
  exists b,
    __init__ now data_arg locs_arg sess (RateTuple l) meta_arg date =
      (Ok b, [bad_rate_warning]) /\
    sample_rate b = None /\
    n_secs b =
      Some (Rank1 (map (fun r => (float_of_nat (length data_arg) / r)%float) l)) /\
    Brain_from_dict now' (save_dict b) =
      (Ok {| data := data b; locs := locs b; sessions := sessions b;
             sample_rate := None; n_secs := None; meta := meta b;
             date_created := date_created b; n_elecs := n_elecs b;
             n_sessions := n_sessions b; kurtosis := kurtosis b |},
       [no_rate_warning]).
Proof.
  intros Hnow.
  pose proof (init_date_nonempty now date Hnow) as Hdate.
  apply String.eqb_neq in Hdate.
  eexists. split; [reflexivity |]. split; [reflexivity |]. split; [reflexivity |].
  unfold Brain_from_dict, save_dict, __init__. cbn. rewrite Hdate. reflexivity.
Qed.

(** With the sessions left out or given as one label, every sample carries
    the same label: there is one session label per sample, one session for a
    recording with samples and none for an empty one, and a rate list is
    accepted only for a recording with samples and only if it has exactly
    one entry. *)
Theorem one_label_means_one_session (now : string) (data_arg : matrix)
    (locs_arg : list vec3) (sess : sessions_arg) (rate : rate_arg)
    (meta_arg : option (gmap string string)) (date : option string)
    (b : Brain) (ws : list string) :
  match sess with SessArray _ => False | _ => True end ->
  __init__ now data_arg locs_arg sess rate meta_arg date = (Ok b, ws) ->
  length (sessions b) = length data_arg /\
  n_sessions b = Nat.min 1 (length data_arg) /\
  forall l, rate = RateList l -> data_arg <> [] /\ length l = 1%nat.
Proof.
  intros Hsess H.
  assert (Hsl : exists lb, init_sessions sess (length data_arg) =
                           repeat lb (length data_arg)).
  { destruct sess as [| lb | a]; [exists (LInt 1) | exists lb | contradiction];
      reflexivity. }
  destruct Hsl as [lb Hsl].
  assert (Hu : n_unique (init_sessions sess (length data_arg)) =
               Nat.min 1 (length data_arg)).
  { rewrite Hsl. destruct data_arg as [| row rows]; [reflexivity |].
    rewrite n_unique_repeat by (simpl; lia). reflexivity. }
  unfold __init__ in H.
  destruct (init_sample_rate rate _) as [[rt | e] w] eqn:Hr; [| discriminate].
  cbn [rbind] in H.
  destruct (init_n_secs rate _) as [secs | e]; [| discriminate].
  cbn [rbind] in H. injection H as <- <-.
  cbn [sessions n_sessions]. split; [rewrite Hsl; apply repeat_length |].
  split; [exact Hu |].
  intros l ->. cbn [init_sample_rate] in Hr.
  destruct l as [| r l]; [discriminate |].
  destruct (Nat.eqb_spec (length (r :: l)) (n_unique (init_sessions sess (length data_arg))))
    as [Heq | Hne]; [| discriminate].
  rewrite Hu in Heq. simpl in Heq.
  destruct data_arg as [| row rows]; [simpl in Heq; lia |].
  split; [discriminate |]. simpl in *. lia.
Qed.

(** ** The further theorems at concrete inputs *)

Example split_dot_pieces :
  split_dot "a.nii.bo" = ["a"; "nii"; "bo"]%string /\
  split_dot "a..b" = ["a"; ""; "b"]%string /\
  split_dot "" = [""%string] /\
  last3 "x.bo" = ".bo"%string /\ last3 "bo" = "bo"%string.
Proof. repeat split. Qed.

Lemma to_nii_without_electrodes_witness :
  w_files empty_world !! template_path "" (Some "template.nii"%string) =
    Some scenario_template /\
  inv3 (affine_linear (img_affine scenario_template)) = Ok identity3 /\
  locs (w_self empty_world) = [] /\
  to_nii inv3 "" None (Some "template.nii"%string) empty_world =
    (Raise ValueError, empty_world).
Proof.
  split; [reflexivity |]. split; [reflexivity |]. split; [reflexivity |].
  apply (to_nii_without_electrodes inv3 "" None (Some "template.nii"%string)
           empty_world scenario_template identity3); reflexivity.
Defined.

Lemma to_nii_flat_template_witness :
  w_files flat_world !! template_path "" (Some "flat.nii"%string) = Some flat_template /\
  inv3 (affine_linear (img_affine flat_template)) = Ok identity3 /\
  locs (w_self flat_world) <> [] /\
  (length (img_shape flat_template) < 3)%nat /\
  to_nii inv3 "" None (Some "flat.nii"%string) flat_world =
    (Raise ValueError, flat_world).
Proof.
  split; [reflexivity |]. split; [reflexivity |]. split; [discriminate |].
  split; [simpl; lia |].
  apply (to_nii_flat_template inv3 "" None (Some "flat.nii"%string)
           flat_world flat_template identity3);
    [reflexivity | reflexivity | discriminate | simpl; lia].
Defined.

Lemma to_nii_saves_returned_image_witness :
  to_nii inv3 "" (Some "out.nii"%string) (Some "template.nii"%string) scenario_world =
    (Ok scenario_output, saved (Some "out.nii"%string) scenario_output scenario_world) /\
  w_files (saved (Some "out.nii"%string) scenario_output scenario_world)
    !! "out.nii"%string = Some scenario_output /\
  forall q, q <> "out.nii"%string ->
    w_files (saved (Some "out.nii"%string) scenario_output scenario_world) !! q =
    w_files scenario_world !! q.
Proof.
  assert (H : to_nii inv3 "" (Some "out.nii"%string) (Some "template.nii"%string)
                scenario_world =
              (Ok scenario_output,
               saved (Some "out.nii"%string) scenario_output scenario_world))
    by (vm_compute; reflexivity).
  split; [exact H |].
  exact (to_nii_saves_returned_image inv3 "" (Some "out.nii"%string)
           (Some "template.nii"%string) scenario_world _ scenario_output H).
Defined.

Lemma to_nii_output_as_template_witness :
  "out.nii"%string <> ""%string /\
  to_nii inv3 "" (Some "out.nii"%string) (Some "template.nii"%string) scenario_world =
    (Ok scenario_output, saved (Some "out.nii"%string) scenario_output scenario_world) /\
  fst (to_nii inv3 "" None (Some "out.nii"%string)
         (saved (Some "out.nii"%string) scenario_output scenario_world)) =
    Ok scenario_output.
Proof.
  assert (H : to_nii inv3 "" (Some "out.nii"%string) (Some "template.nii"%string)
                scenario_world =
              (Ok scenario_output,
               saved (Some "out.nii"%string) scenario_output scenario_world))
    by (vm_compute; reflexivity).
  split; [discriminate |]. split; [exact H |].
  apply (to_nii_output_as_template inv3 "" "out.nii" (Some "template.nii"%string)
           None scenario_world _ scenario_output); [discriminate | exact H].
Defined.

Lemma electrode_lands_in_one_cell_witness :
  exists n,
    to_nii inv3 "" None (Some "template.nii"%string) wrapped_world =
      (Ok n, wrapped_world) /\
    data (w_self wrapped_world) <> [] /\
    locs (w_self wrapped_world) !! 0%nat = Some ((-2)%float, 0%float, 0%float) /\
    exists l g p cell,
      mapped_locs inv3 "" (Some "template.nii"%string) wrapped_world = Ok l /\
      get_fdata n = Ok g /\
      l !! 0%nat = Some p /\
      voxel_of (nd_shape g) p = Ok cell /\
      let '(sx, sy, sz, st) := nd_shape g in
      (px cell = px p \/ (px p < 0 /\ px cell = px p + sx)) /\
      (py cell = py p \/ (py p < 0 /\ py cell = py p + sy)) /\
      (pz cell = pz p \/ (pz p < 0 /\ pz cell = pz p + sz)) /\
      forall t v,
        matrix_get (data (w_self wrapped_world)) t 0 = Ok v ->
        v ∈ cell_values (nd_shape g) l (data (w_self wrapped_world)) t cell
              (length (locs (w_self wrapped_world))).
Proof.
  pose (n := match fst (to_nii inv3 "" None (Some "template.nii"%string) wrapped_world) with
             | Ok n => n
             | Raise _ => scenario_output
             end).
  assert (H : to_nii inv3 "" None (Some "template.nii"%string) wrapped_world =
              (Ok n, wrapped_world)) by (vm_compute; reflexivity).
  exists n. split; [exact H |]. split; [discriminate |]. split; [reflexivity |].
  apply (electrode_lands_in_one_cell inv3 "" None (Some "template.nii"%string)
           wrapped_world wrapped_world n 0 ((-2)%float, 0%float, 0%float));
    [exact H | discriminate | reflexivity].
Defined.

(** The electrode of [wrapped_world], mapped to the index -2 on the first
    axis of a grid of length 5, is stored in the cell 3 of that axis. *)
Example negative_index_counts_from_the_end :
  mapped_locs inv3 "" (Some "template.nii"%string) wrapped_world = Ok [(-2, 0, 0)] /\
  (try n <- fst (to_nii inv3 "" None (Some "template.nii"%string) wrapped_world);
   try g <- get_fdata n;
   getitem g (3, 0, 0, 0)) = Ok 7%float.
Proof. split; vm_compute; reflexivity. Qed.

Lemma to_nii_index_error_witness :
  w_files low_world !! template_path "" (Some "template.nii"%string) =
    Some scenario_template /\
  mapped_locs inv3 "" (Some "template.nii"%string) low_world = Ok [(-6, 0, 0)] /\
  grid_shape [(-6, 0, 0)] (img_shape scenario_template) = Ok (5, 5, 5) /\
  np_zeros (5, 5, 5, Z.of_nat (length (data (w_self low_world)))) =
    Ok {| nd_shape := (5, 5, 5, 1); nd_buf := replicate 125 0%float |} /\
  data (w_self low_world) <> [] /\
  [(-6, 0, 0)] !! 0%nat = Some (-6, 0, 0) /\
  voxel_of (5, 5, 5, Z.of_nat (length (data (w_self low_world)))) (-6, 0, 0) =
    Raise IndexError /\
  to_nii inv3 "" None (Some "template.nii"%string) low_world =
    (Raise IndexError, low_world).
Proof.
  repeat (split; [first [reflexivity | discriminate] |]).
  apply (to_nii_index_error inv3 "" None (Some "template.nii"%string) low_world
           scenario_template [(-6, 0, 0)] 5 5 5
           {| nd_shape := (5, 5, 5, 1); nd_buf := replicate 125 0%float |}
           0 (-6, 0, 0) IndexError);
    first [reflexivity | discriminate].
Defined.

Lemma to_nii_without_samples_witness :
  w_files silent_world !! template_path "" (Some "template.nii"%string) =
    Some scenario_template /\
  mapped_locs inv3 "" (Some "template.nii"%string) silent_world = Ok [(0, 0, 0)] /\
  grid_shape [(0, 0, 0)] (img_shape scenario_template) = Ok (5, 5, 5) /\
  data (w_self silent_world) = [] /\
  fst (to_nii inv3 "" None (Some "template.nii"%string) silent_world) =
    Ok {| img_shape := [5; 5; 5; 0];
          img_affine := img_affine scenario_template;
          img_buf := [] |}.
Proof.
  repeat (split; [reflexivity |]).
  apply (to_nii_without_samples inv3 "" None (Some "template.nii"%string)
           silent_world scenario_template [(0, 0, 0)] 5 5 5);
    first [reflexivity | lia].
Defined.

Lemma time_samples_are_independent_witness :
  exists n2 g2,
    to_nii inv3 "" None (Some "template.nii"%string) scenario_world =
      (Ok scenario_output, scenario_world) /\
    to_nii inv3 "" None (Some "template.nii"%string) two_sample_world =
      (Ok n2, two_sample_world) /\
    get_fdata scenario_output = Ok scenario_grid /\
    get_fdata n2 = Ok g2 /\
    nd_shape g2 = (11, 11, 11, 2) /\
    in_grid (nd_shape scenario_grid) (0, 0, 0, Z.of_nat 0) /\
    exists v, getitem scenario_grid (0, 0, 0, Z.of_nat 0) = Ok v /\
              getitem g2 (0, 0, 0, Z.of_nat 0) = Ok v.
Proof.
  pose (n2 := match fst (to_nii inv3 "" None (Some "template.nii"%string)
                           two_sample_world) with
              | Ok n => n
              | Raise _ => scenario_output
              end).
  pose (g2 := {| nd_shape := (11, 11, 11, 2); nd_buf := img_buf n2 |}).
  assert (H1 : to_nii inv3 "" None (Some "template.nii"%string) scenario_world =
               (Ok scenario_output, scenario_world)) by (vm_compute; reflexivity).
  assert (H2 : to_nii inv3 "" None (Some "template.nii"%string) two_sample_world =
               (Ok n2, two_sample_world)) by (vm_compute; reflexivity).
  assert (G1 : get_fdata scenario_output = Ok scenario_grid) by reflexivity.
  assert (G2 : get_fdata n2 = Ok g2) by (vm_compute; reflexivity).
  assert (Hin : in_grid (nd_shape scenario_grid) (0, 0, 0, Z.of_nat 0))
    by (simpl; lia).
  exists n2, g2.
  split; [exact H1 |]. split; [exact H2 |]. split; [exact G1 |]. split; [exact G2 |].
  split; [reflexivity |]. split; [exact Hin |].
  exact (time_samples_are_independent inv3 "" None None (Some "template.nii"%string)
           scenario_world two_sample_world scenario_world two_sample_world
           scenario_output n2 scenario_grid g2 0 (0, 0, 0)
           eq_refl eq_refl eq_refl H1 H2 G1 G2 Hin).
Defined.

Lemma save_extension_is_optional_witness :
  last3 "subject1" <> ".bo"%string /\
  save constant_brain "subject1.bo" "blosc" (save scenario_brain "subject1" "blosc" ∅) =
    save constant_brain "subject1" "blosc" ∅.
Proof.
  split; [discriminate |].
  apply (save_extension_is_optional scenario_brain constant_brain "subject1"
           "blosc" "blosc" ∅).
  discriminate.
Defined.

Lemma only_value_error_is_unrecognized_filetype_witness :
  _load_from_path (fun _ => inl tt) (fun _ : unit => inl tt : unit + unit)
    (fun _ : unit => inl tt : unit + unit) (fun _ => inl tt : unit + unit)
    "notes.txt" =
    LoadValueError "Filetype not recognized. Must be .bo, .mo or .nii." /\
  "Filetype not recognized. Must be .bo, .mo or .nii."%string =
    "Filetype not recognized. Must be .bo, .mo or .nii."%string.
Proof.
  split; [reflexivity |].
  apply (only_value_error_is_unrecognized_filetype
           (fun _ => inl tt) (fun _ : unit => inl tt : unit + unit)
           (fun _ : unit => inl tt : unit + unit) (fun _ => inl tt : unit + unit)
           "notes.txt").
  reflexivity.
Defined.

Lemma unrecognized_extension_is_rejected_witness :
  dotless "BO" = true /\
  "BO"%string <> "bo"%string /\ "BO"%string <> "mo"%string /\
  "BO"%string <> "nii"%string /\
  _load_from_path (fun _ => inl tt) (fun _ : unit => inl tt : unit + unit)
    (fun _ : unit => inl tt : unit + unit) (fun _ => inl tt : unit + unit)
    "subject1.BO" =
    LoadValueError "Filetype not recognized. Must be .bo, .mo or .nii.".
Proof.
  split; [reflexivity |]. repeat (split; [discriminate |]).
  apply (unrecognized_extension_is_rejected
           (fun _ => inl tt) (fun _ : unit => inl tt : unit + unit)
           (fun _ : unit => inl tt : unit + unit) (fun _ => inl tt : unit + unit)
           "subject1" "BO"); first [reflexivity | discriminate].
Defined.

Lemma path_without_dot_is_its_own_extension_witness :
  dotless "subject1" = true /\
  "subject1"%string <> "bo"%string /\ "subject1"%string <> "mo"%string /\
  "subject1"%string <> "nii"%string /\
  _load_from_path (fun _ => inl tt) (fun _ : unit => inl tt : unit + unit)
    (fun _ : unit => inl tt : unit + unit) (fun _ => inl tt : unit + unit)
    "subject1" =
    LoadValueError "Filetype not recognized. Must be .bo, .mo or .nii.".
Proof.
  split; [reflexivity |]. repeat (split; [discriminate |]).
  apply (path_without_dot_is_its_own_extension
           (fun _ => inl tt) (fun _ : unit => inl tt : unit + unit)
           (fun _ : unit => inl tt : unit + unit) (fun _ => inl tt : unit + unit)
           "subject1"); first [reflexivity | discriminate].
Defined.

Lemma saved_attributes_rebuild_the_brain_witness :
  "now"%string <> ""%string /\
  exists b ws,
    __init__ "now" [[1]; [2]]%float [(0, 0, 0)%float]
      (SessArray [LInt 1; LInt 2]) (RateList [1000; 500]%float) None None = (Ok b, ws) /\
    Brain_from_dict "later" (save_dict b) = (Ok b, ws).
Proof.
  split; [discriminate |].
  eexists. eexists. split; [reflexivity |].
  eapply (saved_attributes_rebuild_the_brain "now" "later" [[1]; [2]]%float
           [(0, 0, 0)%float] (SessArray [LInt 1; LInt 2])
           (RateList [1000; 500]%float) None None);
    [discriminate | exact I | reflexivity].
Defined.

Lemma scalar_rate_brain_rebuilds_only_with_one_session_witness :
  "now"%string <> ""%string /\
  exists b,
    __init__ "now" [[1]; [2]]%float [(0, 0, 0)%float]
      (SessArray [LInt 1; LInt 2]) (RateNumber 1000%float) None None = (Ok b, []) /\
    sample_rate b = Some [1000%float] /\
    n_secs b = Some (Rank0 (float_of_nat 2 / 1000)%float) /\
    (n_sessions b = 1%nat ->
     Brain_from_dict "later" (save_dict b) =
       (Ok {| data := data b; locs := locs b; sessions := sessions b;
              sample_rate := sample_rate b;
              n_secs := Some (Rank1 [(float_of_nat 2 / 1000)%float]);
              meta := meta b; date_created := date_created b;
              n_elecs := n_elecs b; n_sessions := n_sessions b;
              kurtosis := kurtosis b |}, [])) /\
    (n_sessions b <> 1%nat ->
     Brain_from_dict "later" (save_dict b) = (Raise AssertionError, [])).
Proof.
  split; [discriminate |].
  apply (scalar_rate_brain_rebuilds_only_with_one_session "now" "later"
           [[1]; [2]]%float [(0, 0, 0)%float] (SessArray [LInt 1; LInt 2])
           1000%float None None).
  discriminate.
Defined.

Lemma tuple_rate_brain_loses_n_secs_witness :
  "now"%string <> ""%string /\
  exists b,
    __init__ "now" [[1]; [2]]%float [(0, 0, 0)%float] SessNone
      (RateTuple [1000%float]) None None = (Ok b, [bad_rate_warning]) /\
    sample_rate b = None /\
    n_secs b =
      Some (Rank1 (map (fun r => (float_of_nat 2 / r)%float) [1000%float])) /\
    Brain_from_dict "later" (save_dict b) =
      (Ok {| data := data b; locs := locs b; sessions := sessions b;
             sample_rate := None; n_secs := None; meta := meta b;
             date_created := date_created b; n_elecs := n_elecs b;
             n_sessions := n_sessions b; kurtosis := kurtosis b |},
       [no_rate_warning]).
Proof.
  split; [discriminate |].
  apply (tuple_rate_brain_loses_n_secs "now" "later" [[1]; [2]]%float
           [(0, 0, 0)%float] SessNone [1000%float] None None).
  discriminate.
Defined.

Lemma one_label_means_one_session_witness :
  exists b ws,
    __init__ "now" [[1]; [2]]%float [(0, 0, 0)%float] SessNone
      (RateList [1000%float]) None None = (Ok b, ws) /\
    length (sessions b) = 2%nat /\
    n_sessions b = 1%nat /\
    forall l, RateList [1000%float] = RateList l ->
              [[1]; [2]]%float <> [] /\ length l = 1%nat.
Proof.
  eexists. eexists. split; [reflexivity |].
  eapply (one_label_means_one_session "now" [[1]; [2]]%float [(0, 0, 0)%float]
           SessNone (RateList [1000%float]) None None); [exact I | reflexivity].
Defined.
